(** * AzureOpenAIGenerator: construction, serialization, deserialization

    A shallow embedding of [haystack/components/generators/azure.py].

    The class has three methods: [__init__] (resolve the endpoint, check the
    credentials, normalise the options, build the [AzureOpenAI] client),
    [to_dict] and [from_dict].  Everything the file imports -- the [Secret]
    abstraction, the callable (de)serialisers, the builtin [float] and [int]
    parsers, the [AzureOpenAI] client -- is a collaborator and is kept as an
    interface ([Framework], [Runtime]); the three methods are translated
    line by line on top of it. *)

From Stdlib Require Import ZArith Floats Uint63 Ascii String.
From stdpp Require Import gmap strings list fin_maps.

#[local] Open Scope string_scope.

(** [os.environ]: variable name to value. *)
Abbreviation environ := (gmap string string).

(** ** Python values

    The values that travel through a serialized document: JSON-like data,
    plus the [Secret] and callable objects that [from_dict] puts back into the
    dictionary before it calls the constructor. *)

Section Values.
Context {Secret Callable : Type}.
(** [bool(f)] of a callable object *)
Context (callable_truth : Callable → bool).

#[warnings="-register-all"]
Inductive pyval : Type :=
| PNone
| PBool (b : bool)
| PInt (z : Z)
| PFloat (f : float)
| PStr (s : string)
| PList (l : list pyval)
| PDict (d : gmap string pyval)
| PSecret (s : Secret)
| PCallable (f : Callable).

(** Python truth value of an object ([bool(v)]): [None], [False], zero,
    the empty string and the empty containers are false; a [Secret] is
    true; a callable object has the truth value its class gives it. *)
Definition truthy (v : pyval) : bool :=
  match v with
  | PNone => false
  | PBool b => b
  | PInt z => negb (z =? 0)%Z
  | PFloat f => negb (PrimFloat.eqb f 0%float)
  | PStr s => negb (String.eqb s "")
  | PList l => match l with [] => false | _ => true end
  | PDict d => negb (bool_decide (d = ∅))
  | PSecret _ => true
  | PCallable f => callable_truth f
  end.

(** An [Optional[T]] seen as a Python value. *)
Definition of_opt {A} (inj : A → pyval) (o : option A) : pyval :=
  match o with Some a => inj a | None => PNone end.
End Values.

Arguments pyval : clear implicits.

(** Truth value of an [Optional[str]] and of an [Optional[Dict]]. *)
Definition str_truthy (o : option string) : bool :=
  match o with Some s => negb (String.eqb s "") | None => false end.

(** [x is None] *)
Definition is_none {A} (o : option A) : bool :=
  match o with None => true | Some _ => false end.

Definition dict_truthy {V} (o : option (gmap string V)) : bool :=
  match o with Some d => negb (bool_decide (d = ∅)) | None => false end.

(** ** Exceptions and results

    Exceptions are told apart by where they are raised.  The two
    [raise ValueError(...)] statements of [__init__] are the configuration
    errors; a [ValueError] coming out of the builtin [float()] / [int()] is a
    parse error; what a collaborator raises is wrapped in [Raised]. *)

Inductive exn (E : Type) : Type :=
| ConfigurationError (msg : string)
| ParseError (builtin text : string)
| KeyError (key : string)
| TypeError (what : string)
| DeserializationError (msg : string)
| Raised (e : E).

Arguments ConfigurationError {E} msg.
Arguments ParseError {E} builtin text.
Arguments KeyError {E} key.
Arguments TypeError {E} what.
Arguments DeserializationError {E} msg.
Arguments Raised {E} e.

Inductive result (E A : Type) : Type :=
| Ok (a : A)
| Err (e : exn E).

Arguments Ok {E A} a.
Arguments Err {E A} e.

#[global] Instance result_ret {E} : MRet (result E) := λ A a, Ok a.
#[global] Instance result_bind {E} : MBind (result E) :=
  λ A B f m, match m with Ok a => f a | Err e => Err e end.

(** A call into a collaborator: its exception, if any, propagates. *)
Definition call {E A} (r : E + A) : result E A :=
  match r with inl e => Err (Raised e) | inr a => Ok a end.

Definition is_configuration_error {E A} (r : result E A) : bool :=
  match r with Err (ConfigurationError _) => true | _ => false end.

Definition is_parse_error {E A} (r : result E A) : bool :=
  match r with Err (ParseError _ _) => true | _ => false end.

Definition is_ok {E A} (r : result E A) : bool :=
  match r with Ok _ => true | Err _ => false end.

(** ** The host framework

    What [azure.py] imports from [haystack.utils] and from the builtins. *)

Class Framework := {
  (** [haystack.utils.Secret], a deferred-resolution credential holder *)
  Secret : Type;
  (** a Python callable object (streaming callback, token provider) *)
  Callable : Type;
  (** exceptions raised inside the collaborators *)
  HostError : Type;
  (** [Secret.from_env_var(name, strict=b)] *)
  from_env_var : string → bool → Secret;
  (** [secret.to_dict()] *)
  Secret_to_dict : Secret → HostError + pyval Secret Callable;
  (** [Secret.from_dict(d)] *)
  Secret_from_dict : pyval Secret Callable → HostError + Secret;
  (** [serialize_callable(f)]: the importable name of [f] *)
  serialize_callable : Callable → HostError + string;
  (** [deserialize_callable(name)] *)
  deserialize_callable : string → HostError + Callable;
  (** [bool(f)], the truth value of a callable object: a function is true;
      an instance of a class with [__call__] that also defines [__bool__]
      or [__len__] can be false *)
  callable_truth : Callable → bool;
  (** builtin [float(s)] on a string; [None] when it raises [ValueError] *)
  py_float : string → option float;
  (** builtin [int(s)] on a string; [None] when it raises [ValueError] *)
  py_int : string → option Z;
}.

Abbreviation value := (pyval Secret Callable).
Abbreviation res := (result HostError).

(** An actual argument of a call: left out (the parameter takes its
    default) or passed. *)
Inductive arg (A : Type) : Type :=
| Omitted
| Passed (a : A).

Arguments Omitted {A}.
Arguments Passed {A} a.

Definition or_default {A} (d : A) (x : arg A) : A :=
  match x with Omitted => d | Passed a => a end.

Section Generator.
Context `{Framework}.

(** The arguments of one call [AzureOpenAIGenerator(...)], in the order of
    the signature (lines 59-72). *)
Record Call : Type := {
  arg_azure_endpoint : arg (option string);
  arg_api_version : arg (option string);
  arg_azure_deployment : arg (option string);
  arg_api_key : arg (option Secret);
  arg_azure_ad_token : arg (option Secret);
  arg_organization : arg (option string);
  arg_streaming_callback : arg (option Callable);
  arg_system_prompt : arg (option string);
  arg_timeout : arg (option float);
  arg_max_retries : arg (option Z);
  arg_generation_kwargs : arg (option (gmap string value));
  arg_default_headers : arg (option (gmap string value));
  arg_azure_ad_token_provider : arg (option Callable);
}.

(** The attributes [__init__] assigns on [self] (lines 132-145), the
    client apart. *)
Record Fields : Type := {
  api_key : option Secret;
  azure_ad_token : option Secret;
  generation_kwargs : gmap string value;
  system_prompt : option string;
  streaming_callback : option Callable;
  api_version : option string;
  azure_endpoint : string;
  azure_deployment : option string;
  organization : option string;
  model : string;
  timeout : float;
  max_retries : Z;
  default_headers : gmap string value;
  azure_ad_token_provider : option Callable;
}.

(** The keyword arguments of the [AzureOpenAI(...)] call (lines 147-158). *)
Record ClientArgs : Type := {
  kw_api_version : option string;
  kw_azure_endpoint : string;
  kw_azure_deployment : option string;
  kw_azure_ad_token_provider : option Callable;
  kw_api_key : option string;
  kw_azure_ad_token : option string;
  kw_organization : option string;
  kw_timeout : float;
  kw_max_retries : Z;
  kw_default_headers : gmap string value;
}.

Definition msg_endpoint : string :=
  "Please provide an Azure endpoint or set the environment variable AZURE_OPENAI_ENDPOINT.".

Definition msg_credential : string :=
  "Please provide an API key or an Azure Active Directory token.".

(** [float(os.environ.get(name, fallback))] and the [int] analogue. *)
Definition float_env (env : environ) (name fallback : string) : res float :=
  let text := default fallback (env !! name) in
  match py_float text with
  | Some f => Ok f
  | None => Err (ParseError "float" text)
  end.

Definition int_env (env : environ) (name fallback : string) : res Z :=
  let text := default fallback (env !! name) in
  match py_int text with
  | Some z => Ok z
  | None => Err (ParseError "int" text)
  end.

(** *** Parameter binding (lines 59-72)

    The value each parameter has when the body starts: the argument, or
    the default of the signature when the argument is left out. *)
Definition p_azure_endpoint (c : Call) : option string :=
  or_default None (arg_azure_endpoint c).
Definition p_api_version (c : Call) : option string :=
  or_default (Some "2023-05-15") (arg_api_version c).
Definition p_azure_deployment (c : Call) : option string :=
  or_default (Some "gpt-4o-mini") (arg_azure_deployment c).
Definition p_api_key (c : Call) : option Secret :=
  or_default (Some (from_env_var "AZURE_OPENAI_API_KEY" false)) (arg_api_key c).
Definition p_azure_ad_token (c : Call) : option Secret :=
  or_default (Some (from_env_var "AZURE_OPENAI_AD_TOKEN" false)) (arg_azure_ad_token c).
Definition p_organization (c : Call) : option string :=
  or_default None (arg_organization c).
Definition p_streaming_callback (c : Call) : option Callable :=
  or_default None (arg_streaming_callback c).
Definition p_system_prompt (c : Call) : option string :=
  or_default None (arg_system_prompt c).
Definition p_timeout (c : Call) : option float :=
  or_default None (arg_timeout c).
Definition p_max_retries (c : Call) : option Z :=
  or_default None (arg_max_retries c).
Definition p_generation_kwargs (c : Call) : option (gmap string value) :=
  or_default None (arg_generation_kwargs c).
Definition p_default_headers (c : Call) : option (gmap string value) :=
  or_default None (arg_default_headers c).
Definition p_azure_ad_token_provider (c : Call) : option Callable :=
  or_default None (arg_azure_ad_token_provider c).

(** Line 123:
    [azure_endpoint = azure_endpoint or os.environ.get("AZURE_OPENAI_ENDPOINT")] *)
Definition resolved_endpoint (env : environ) (c : Call) : option string :=
  if str_truthy (p_azure_endpoint c) then p_azure_endpoint c
  else env !! "AZURE_OPENAI_ENDPOINT".

(** Line 142:
    [timeout if timeout is not None else float(os.environ.get("OPENAI_TIMEOUT", "30.0"))] *)
Definition effective_timeout (env : environ) (c : Call) : res float :=
  match p_timeout c with
  | Some t => Ok t
  | None => float_env env "OPENAI_TIMEOUT" "30.0"
  end.

(** Line 143:
    [max_retries if max_retries is not None else int(os.environ.get("OPENAI_MAX_RETRIES", "5"))] *)
Definition effective_max_retries (env : environ) (c : Call) : res Z :=
  match p_max_retries c with
  | Some n => Ok n
  | None => int_env env "OPENAI_MAX_RETRIES" "5"
  end.

(** Lines 132-145: the assignments to [self], once both checks passed.
    [azure_endpoint] is the resolved endpoint. *)
Definition assign_fields (env : environ) (c : Call) (azure_endpoint : string) : res Fields :=
  (* self.generation_kwargs = generation_kwargs or {} *)
  let generation_kwargs :=
    if dict_truthy (p_generation_kwargs c)
    then default ∅ (p_generation_kwargs c) else ∅ in
  (* self.model = azure_deployment or "gpt-4o-mini" *)
  let model :=
    if str_truthy (p_azure_deployment c)
    then default "" (p_azure_deployment c) else "gpt-4o-mini" in
  timeout ← effective_timeout env c;
  max_retries ← effective_max_retries env c;
  (* self.default_headers = default_headers or {} *)
  let default_headers :=
    if dict_truthy (p_default_headers c)
    then default ∅ (p_default_headers c) else ∅ in
  Ok {| api_key := p_api_key c;
        azure_ad_token := p_azure_ad_token c;
        generation_kwargs := generation_kwargs;
        system_prompt := p_system_prompt c;
        streaming_callback := p_streaming_callback c;
        api_version := p_api_version c;
        azure_endpoint := azure_endpoint;
        azure_deployment := p_azure_deployment c;
        organization := p_organization c;
        model := model;
        timeout := timeout;
        max_retries := max_retries;
        default_headers := default_headers;
        azure_ad_token_provider := p_azure_ad_token_provider c |}.

(** Lines 123-145 of [__init__]: everything before the client is built. *)
Definition init_fields (env : environ) (c : Call) : res Fields :=
  let azure_endpoint := resolved_endpoint env c in
  (* if not azure_endpoint: raise ValueError(...) *)
  if negb (str_truthy azure_endpoint) then Err (ConfigurationError msg_endpoint)
  else
    (* if api_key is None and azure_ad_token is None: raise ValueError(...) *)
    if is_none (p_api_key c) && is_none (p_azure_ad_token c)
    then Err (ConfigurationError msg_credential)
    else
      (* a non-empty string at this point, by the first check *)
      assign_fields env c (default "" azure_endpoint).

(** The keyword arguments of lines 147-158, given the two resolved
    credentials.  The locals the call mentions were assigned to [self]
    unchanged, so they are read back from the fields. *)
Definition kwargs_of (f : Fields) (key token : option string) : ClientArgs :=
  {| kw_api_version := api_version f;
     kw_azure_endpoint := azure_endpoint f;
     kw_azure_deployment := azure_deployment f;
     kw_azure_ad_token_provider := azure_ad_token_provider f;
     kw_api_key := key;
     kw_azure_ad_token := token;
     kw_organization := organization f;
     kw_timeout := timeout f;
     kw_max_retries := max_retries f;
     kw_default_headers := default_headers f |}.

(** *** Conditions on a call, as the statements below use them *)

(** An endpoint is available: the argument or the environment variable
    is a non-empty string. *)
Definition endpoint_available (env : environ) (c : Call) : bool :=
  str_truthy (p_azure_endpoint c) || str_truthy (env !! "AZURE_OPENAI_ENDPOINT").

(** At least one of the two credential parameters is not [None]. *)
Definition credential_present (c : Call) : bool :=
  negb (is_none (p_api_key c) && is_none (p_azure_ad_token c)).

(** The three environment variables the attributes depend on. *)
Definition same_settings (env1 env2 : environ) : Prop :=
  env1 !! "AZURE_OPENAI_ENDPOINT" = env2 !! "AZURE_OPENAI_ENDPOINT" ∧
  env1 !! "OPENAI_TIMEOUT" = env2 !! "OPENAI_TIMEOUT" ∧
  env1 !! "OPENAI_MAX_RETRIES" = env2 !! "OPENAI_MAX_RETRIES".

(** ** Serialization helpers of the host framework *)

Definition class_name : string :=
  "haystack.components.generators.azure.AzureOpenAIGenerator".

(** Modelled from the spec: [default_to_dict] is not in the file; the spec
    describes its result as a named-type wrapper around the mapping of
    init parameters. *)
Definition default_to_dict (init_parameters : gmap string value) : gmap string value :=
  <["type" := PStr class_name]> (<["init_parameters" := PDict init_parameters]> ∅).

(** [serialize_callable(f)], as the document entry it becomes. *)
Definition callable_name (f : Callable) : HostError + value :=
  match serialize_callable f with inl e => inl e | inr n => inr (PStr n) end.

(** [f if f else None]: the callable that passes the truth test of lines
    167 and 169, [None] for an absent one and for a false one. *)
Definition true_callable (o : option Callable) : option Callable :=
  match o with
  | Some f => if callable_truth f then Some f else None
  | None => None
  end.

(** The keyword arguments of the [default_to_dict] call (lines 173-185),
    given the four entries that are computed rather than copied. *)
Definition parameters (f : Fields)
    (callback_name v_api_key v_azure_ad_token provider_name : value) : gmap string value :=
  <["azure_endpoint" := PStr (azure_endpoint f)]>
  (<["azure_deployment" := of_opt PStr (azure_deployment f)]>
  (<["organization" := of_opt PStr (organization f)]>
  (<["api_version" := of_opt PStr (api_version f)]>
  (<["streaming_callback" := callback_name]>
  (<["generation_kwargs" := PDict (generation_kwargs f)]>
  (<["system_prompt" := of_opt PStr (system_prompt f)]>
  (<["api_key" := v_api_key]>
  (<["azure_ad_token" := v_azure_ad_token]>
  (<["timeout" := PFloat (timeout f)]>
  (<["max_retries" := PInt (max_retries f)]>
  (<["default_headers" := PDict (default_headers f)]>
  (<["azure_ad_token_provider" := provider_name]> ∅)))))))))))).

(** Modelled from the spec: [deserialize_secrets_inplace] is not in the
    file; the spec has the listed secret fields rebuilt from their
    serialized form, a null entry staying null.  The dictionary is updated
    in place: the updated dictionary is returned. *)
Definition deserialize_secret_at
    (data : gmap string value) (key : string) : res (gmap string value) :=
  match data !! key with
  | None | Some PNone => Ok data
  | Some v => s ← call (Secret_from_dict v); Ok (<[key := PSecret s]> data)
  end.

Definition deserialize_secrets_inplace
    (data : gmap string value) (keys : list string) : res (gmap string value) :=
  foldl (λ acc key, d ← acc; deserialize_secret_at d key) (Ok data) keys.

(** ** Keyword-argument binding: the constructor called on the unpacked
    [init_params] dictionary

    The embedding is typed after the annotations of the signature: an
    entry that does not have the annotated type is outside the model and
    is rejected here (Python itself would bind it unchecked).  A key that
    is not a parameter name is a [TypeError] in Python too. *)

Definition as_opt_str (v : value) : option (option string) :=
  match v with PNone => Some None | PStr s => Some (Some s) | _ => None end.
Definition as_opt_secret (v : value) : option (option Secret) :=
  match v with PNone => Some None | PSecret s => Some (Some s) | _ => None end.
Definition as_opt_callable (v : value) : option (option Callable) :=
  match v with PNone => Some None | PCallable f => Some (Some f) | _ => None end.
Definition as_opt_float (v : value) : option (option float) :=
  match v with PNone => Some None | PFloat f => Some (Some f) | _ => None end.
Definition as_opt_int (v : value) : option (option Z) :=
  match v with PNone => Some None | PInt z => Some (Some z) | _ => None end.
Definition as_opt_dict (v : value) : option (option (gmap string value)) :=
  match v with PNone => Some None | PDict d => Some (Some d) | _ => None end.

Definition param_names : gset string :=
  {[ "azure_endpoint"; "api_version"; "azure_deployment"; "api_key";
     "azure_ad_token"; "organization"; "streaming_callback"; "system_prompt";
     "timeout"; "max_retries"; "generation_kwargs"; "default_headers";
     "azure_ad_token_provider" ]}.

Definition kwarg {A} (cast : value → option A)
    (kw : gmap string value) (name : string) : res (arg A) :=
  match kw !! name with
  | None => Ok Omitted
  | Some v =>
    match cast v with
    | Some a => Ok (Passed a)
    | None => Err (TypeError name)
    end
  end.

Definition bind_kwargs (kw : gmap string value) : res Call :=
  if bool_decide (dom kw ⊆ param_names) then
    a1 ← kwarg as_opt_str kw "azure_endpoint";
    a2 ← kwarg as_opt_str kw "api_version";
    a3 ← kwarg as_opt_str kw "azure_deployment";
    a4 ← kwarg as_opt_secret kw "api_key";
    a5 ← kwarg as_opt_secret kw "azure_ad_token";
    a6 ← kwarg as_opt_str kw "organization";
    a7 ← kwarg as_opt_callable kw "streaming_callback";
    a8 ← kwarg as_opt_str kw "system_prompt";
    a9 ← kwarg as_opt_float kw "timeout";
    a10 ← kwarg as_opt_int kw "max_retries";
    a11 ← kwarg as_opt_dict kw "generation_kwargs";
    a12 ← kwarg as_opt_dict kw "default_headers";
    a13 ← kwarg as_opt_callable kw "azure_ad_token_provider";
    Ok {| arg_azure_endpoint := a1; arg_api_version := a2;
          arg_azure_deployment := a3; arg_api_key := a4;
          arg_azure_ad_token := a5; arg_organization := a6;
          arg_streaming_callback := a7; arg_system_prompt := a8;
          arg_timeout := a9; arg_max_retries := a10;
          arg_generation_kwargs := a11; arg_default_headers := a12;
          arg_azure_ad_token_provider := a13 |}
  else Err (TypeError "unexpected keyword argument").

(** The call that passes every attribute of [f] back explicitly. *)
Definition call_of (f : Fields) : Call :=
  {| arg_azure_endpoint := Passed (Some (azure_endpoint f));
     arg_api_version := Passed (api_version f);
     arg_azure_deployment := Passed (azure_deployment f);
     arg_api_key := Passed (api_key f);
     arg_azure_ad_token := Passed (azure_ad_token f);
     arg_organization := Passed (organization f);
     arg_streaming_callback := Passed (streaming_callback f);
     arg_system_prompt := Passed (system_prompt f);
     arg_timeout := Passed (Some (timeout f));
     arg_max_retries := Passed (Some (max_retries f));
     arg_generation_kwargs := Passed (Some (generation_kwargs f));
     arg_default_headers := Passed (Some (default_headers f));
     arg_azure_ad_token_provider := Passed (azure_ad_token_provider f) |}.

(** The attributes as [to_dict] records them: a callable that fails its
    truth test is recorded as null, like an absent one. *)
Definition as_serialized (f : Fields) : Fields :=
  {| api_key := api_key f;
     azure_ad_token := azure_ad_token f;
     generation_kwargs := generation_kwargs f;
     system_prompt := system_prompt f;
     streaming_callback := true_callable (streaming_callback f);
     api_version := api_version f;
     azure_endpoint := azure_endpoint f;
     azure_deployment := azure_deployment f;
     organization := organization f;
     model := model f;
     timeout := timeout f;
     max_retries := max_retries f;
     default_headers := default_headers f;
     azure_ad_token_provider := true_callable (azure_ad_token_provider f) |}.

(** The callables held are true, as function objects are. *)
Definition callables_true (f : Fields) : Prop :=
  (∀ g, streaming_callback f = Some g → callable_truth g = true) ∧
  (∀ g, azure_ad_token_provider f = Some g → callable_truth g = true).
End Generator.

(** ** What exists only at run time: secret resolution and the client *)

Class Runtime `{Framework} := {
  (** the object [AzureOpenAI(...)] returns *)
  Client : Type;
  (** [secret.resolve_value()], which reads the environment *)
  resolve_value : environ → Secret → HostError + option string;
  (** the constructor of [openai.lib.azure.AzureOpenAI] *)
  AzureOpenAI : environ → ClientArgs → HostError + Client;
}.

Section Component.
Context `{Runtime}.

(** An instance: its attributes and the client it holds. *)
Record Component : Type := {
  fields :> Fields;
  client : Client;
}.

(** [s.resolve_value() if s is not None else None] *)
Definition resolve_opt (env : environ) (o : option Secret) : res (option string) :=
  match o with
  | Some s => call (resolve_value env s)
  | None => Ok None
  end.

(** The argument list of lines 147-158: the two secrets are resolved
    here, in argument order. *)
Definition client_kwargs (env : environ) (f : Fields) : res ClientArgs :=
  key ← resolve_opt env (api_key f);
  token ← resolve_opt env (azure_ad_token f);
  Ok (kwargs_of f key token).

Definition __init__ (env : environ) (c : Call) : res Component :=
  f ← init_fields env c;
  kw ← client_kwargs env f;
  cl ← call (AzureOpenAI env kw);
  Ok {| fields := f; client := cl |}.

(** *** Methods on an existing instance

    A method body runs against the receiver and hands it back, possibly
    changed. *)
Definition Method (A : Type) : Type := Component → res A * Component.

Definition m_ret {A} (a : A) : Method A := λ self, (Ok a, self).

Definition m_bind {A B} (m : Method A) (k : A → Method B) : Method B :=
  λ self,
    match m self with
    | (Ok a, self') => k a self'
    | (Err e, self') => (Err e, self')
    end.

(** [self.x] *)
Definition attr {A} (get : Fields → A) : Method A := λ self, (Ok (get self), self).

(** [self.x = v] *)
Definition set_fields (upd : Fields → Fields) : Method unit :=
  λ self, (Ok tt, {| fields := upd self; client := client self |}).

(** a call into a collaborator from inside a method *)
Definition m_call {A} (r : HostError + A) : Method A := λ self, (call r, self).

Notation "x ⇐ m ; k" := (m_bind m (λ x, k))
  (at level 20, m at level 100, k at level 200, right associativity,
   format "x  ⇐  m ;  '/' k").

(** [f(x) if x is not None else None] (lines 180-181): the test is
    presence. *)
Definition serialized_or_none {A}
    (ser : A → HostError + value) (o : option A) : Method value :=
  match o with
  | Some a => m_call (ser a)
  | None => m_ret PNone
  end.

(** [f(x) if x else None] (lines 167-170): the test is the truth value of
    the object, so a callable that is present but false is not serialized:
    its entry is null and [ser] is not called. *)
Definition serialized_if_true
    (ser : Callable → HostError + value) (o : option Callable) : Method value :=
  match o with
  | Some f => if callable_truth f then m_call (ser f) else m_ret PNone
  | None => m_ret PNone
  end.

Definition to_dict : Method (gmap string value) :=
  cb ⇐ attr streaming_callback;
  callback_name ⇐ serialized_if_true callable_name cb;
  provider ⇐ attr azure_ad_token_provider;
  azure_ad_token_provider_name ⇐ serialized_if_true callable_name provider;
  v_azure_endpoint ⇐ attr azure_endpoint;
  v_azure_deployment ⇐ attr azure_deployment;
  v_organization ⇐ attr organization;
  v_api_version ⇐ attr api_version;
  v_generation_kwargs ⇐ attr generation_kwargs;
  v_system_prompt ⇐ attr system_prompt;
  key ⇐ attr api_key;
  v_api_key ⇐ serialized_or_none Secret_to_dict key;
  token ⇐ attr azure_ad_token;
  v_azure_ad_token ⇐ serialized_or_none Secret_to_dict token;
  v_timeout ⇐ attr timeout;
  v_max_retries ⇐ attr max_retries;
  v_default_headers ⇐ attr default_headers;
  m_ret (default_to_dict
    (<["azure_endpoint" := PStr v_azure_endpoint]>
    (<["azure_deployment" := of_opt PStr v_azure_deployment]>
    (<["organization" := of_opt PStr v_organization]>
    (<["api_version" := of_opt PStr v_api_version]>
    (<["streaming_callback" := callback_name]>
    (<["generation_kwargs" := PDict v_generation_kwargs]>
    (<["system_prompt" := of_opt PStr v_system_prompt]>
    (<["api_key" := v_api_key]>
    (<["azure_ad_token" := v_azure_ad_token]>
    (<["timeout" := PFloat v_timeout]>
    (<["max_retries" := PInt v_max_retries]>
    (<["default_headers" := PDict v_default_headers]>
    (<["azure_ad_token_provider" := azure_ad_token_provider_name]> ∅)))))))))))))).

(** The document as a function of the attributes: the same four
    collaborator calls in the same order, under the same tests, without the
    receiver. *)
Definition serialized_opt {A}
    (ser : A → HostError + value) (o : option A) : res value :=
  match o with
  | Some a => call (ser a)
  | None => Ok PNone
  end.

Definition document_of (f : Fields) : res (gmap string value) :=
  callback_name ← serialized_opt callable_name (true_callable (streaming_callback f));
  provider_name ←
    serialized_opt callable_name (true_callable (azure_ad_token_provider f));
  v_api_key ← serialized_opt Secret_to_dict (api_key f);
  v_azure_ad_token ← serialized_opt Secret_to_dict (azure_ad_token f);
  Ok (default_to_dict (parameters f callback_name v_api_key v_azure_ad_token provider_name)).

(** Modelled from the spec: [default_from_dict] is not in the file; the
    spec has it check the named-type wrapper and delegate to the
    constructor [cls] with the init parameters as keyword arguments. *)
Definition default_from_dict {A} (cls : Call → res A)
    (data : gmap string value) : res A :=
  match data !! "type" with
  | None => Err (DeserializationError "Missing 'type' in serialization data")
  | Some (PStr t) =>
    if String.eqb t class_name then
      (* init_params = data.get("init_parameters", {}) *)
      init_params ← match data !! "init_parameters" with
                    | None => Ok ∅
                    | Some (PDict d) => Ok d
                    | Some _ => Err (TypeError "init_parameters")
                    end;
      c ← bind_kwargs init_params;
      cls c
    else Err (DeserializationError "type mismatch")
  | Some _ => Err (DeserializationError "type mismatch")
  end.

(** One of the two callable entries of [from_dict] (lines 200-207):
    a true entry is replaced, in place, by the callable it names. *)
Definition restore_callable (key : string)
    (init_params : gmap string value) : res (gmap string value) :=
  (* init_params.get(key) *)
  let serialized := default PNone (init_params !! key) in
  if truthy callable_truth serialized then
    match serialized with
    | PStr name =>
      f ← call (deserialize_callable name);
      Ok (<[key := PCallable f]> init_params)
    | _ => Err (TypeError key)
    end
  else Ok init_params.

(** Lines 198-207: the document after the secrets and the callables were
    put back in place. *)
Definition restored (data : gmap string value) : res (gmap string value) :=
  (* data["init_parameters"] *)
  init_params ← match data !! "init_parameters" with
                | None => Err (KeyError "init_parameters")
                | Some (PDict d) => Ok d
                | Some _ => Err (TypeError "init_parameters")
                end;
  init_params ← deserialize_secrets_inplace init_params ["api_key"; "azure_ad_token"];
  init_params ← restore_callable "streaming_callback" init_params;
  init_params ← restore_callable "azure_ad_token_provider" init_params;
  Ok (<["init_parameters" := PDict init_params]> data).

Definition from_dict (env : environ) (data : gmap string value) : res Component :=
  data ← restored data;
  default_from_dict (__init__ env) data.

(** The parameters [from_dict] reconstructs from a document: what the
    constructor is called with. *)
Definition reconstructed (data : gmap string value) : res Call :=
  data ← restored data;
  default_from_dict Ok data.
End Component.

(** ** A reference host

    A small concrete framework and runtime, used to run the methods on
    concrete inputs. *)

Module Ref.

(** Modelled from the spec: [Secret] is not in the file; the spec
    describes it as a tagged variant, a literal or an environment-variable
    lookup, resolved on demand, whose serialized form never carries a
    resolved value.  A literal therefore has no serialized form. *)
Inductive secret : Type :=
| Token (v : string)
| EnvVar (names : list string) (strict : bool).

(** A callable is a function importable by its qualified name, an
    anonymous function, or an instance of a class with [__call__] whose
    [__len__] returns 0: an object that can be called and is false. *)
Inductive callable : Type :=
| Function (qualname : string)
| Lambda
| EmptyHandler.

(** Functions are true. *)
Definition truth (f : callable) : bool :=
  match f with
  | Function _ | Lambda => true
  | EmptyHandler => false
  end.

Inductive error : Type :=
| NotSerializable
| BadSecretDocument
| UnresolvedSecret
| NotImportable
| MissingCredentials.

Abbreviation rvalue := (pyval secret callable).

(** Modelled from the spec: [resolve_value] is not in the file; a literal
    yields its value, a lookup the first variable of its list that is set; a
    strict lookup fails when none is, a lenient one resolves to [None]. *)
Definition resolve (env : environ) (s : secret) : error + option string :=
  match s with
  | Token v => inr (Some v)
  | EnvVar names strict =>
    match omap (λ n, env !! n) names with
    | v :: _ => inr (Some v)
    | [] => if strict then inl UnresolvedSecret else inr None
    end
  end.

(** Modelled from the spec: [Secret.to_dict] is not in the file; it emits
    the reference (the variable names, not their contents) and never a
    resolved literal, so it raises on a literal secret. *)
Definition secret_to_dict (s : secret) : error + rvalue :=
  match s with
  | Token _ => inl NotSerializable
  | EnvVar names strict =>
    inr (PDict (<["type" := PStr "env_var"]>
               (<["env_vars" := PList (PStr <$> names)]>
               (<["strict" := PBool strict]> ∅))))
  end.

Fixpoint strings_of (l : list rvalue) : option (list string) :=
  match l with
  | [] => Some []
  | PStr s :: l' => match strings_of l' with Some r => Some (s :: r) | None => None end
  | _ => None
  end.

(** Modelled from the spec: [Secret.from_dict] is not in the file; it
    rebuilds the reference from its serialized form, without resolving it. *)
Definition secret_from_dict (v : rvalue) : error + secret :=
  match v with
  | PDict d =>
    match d !! "type", d !! "env_vars", d !! "strict" with
    | Some (PStr t), Some (PList l), Some (PBool strict) =>
      if String.eqb t "env_var" then
        match strings_of l with
        | Some names => inr (EnvVar names strict)
        | None => inl BadSecretDocument
        end
      else inl BadSecretDocument
    | _, _, _ => inl BadSecretDocument
    end
  | _ => inl BadSecretDocument
  end.

(** Modelled from the spec: [serialize_callable] and
    [deserialize_callable] are not in the file; a callable is converted to a
    resolvable name, and a name is resolved back to the callable it names. *)
Definition serialize (f : callable) : error + string :=
  match f with
  | Function n => if String.eqb n "" then inl NotSerializable else inr n
  | Lambda | EmptyHandler => inl NotSerializable
  end.

Definition deserialize (n : string) : error + callable :=
  if String.eqb n "" then inl NotImportable else inr (Function n).

(** Decimal literals: an optional sign and ASCII digits for [int]; for
    [float] also a fractional part.  This covers the literals used below,
    not the whole grammar of the builtins. *)
Definition digit (a : ascii) : option Z :=
  let n := Z.of_nat (nat_of_ascii a) in
  if ((48 <=? n) && (n <=? 57))%Z then Some (n - 48)%Z else None.

Fixpoint digits (acc : Z) (s : string) : option Z :=
  match s with
  | EmptyString => Some acc
  | String a s' =>
    match digit a with
    | Some d => digits (10 * acc + d)%Z s'
    | None => None
    end
  end.

Definition unsigned (s : string) : option Z :=
  match s with EmptyString => None | _ => digits 0 s end.

Definition parse_int (s : string) : option Z :=
  match s with
  | String "-"%char s' => Z.opp <$> unsigned s'
  | String "+"%char s' => unsigned s'
  | _ => unsigned s
  end.

Fixpoint split_dot (s : string) : string * option string :=
  match s with
  | EmptyString => (EmptyString, None)
  | String "."%char s' => (EmptyString, Some s')
  | String a s' => let '(i, f) := split_dot s' in (String a i, f)
  end.

Definition float_of_Z (z : Z) : float := PrimFloat.of_uint63 (Uint63.of_Z z).

Definition parse_float (s : string) : option float :=
  match split_dot s with
  | (i, None) => float_of_Z <$> unsigned i
  | (i, Some f) =>
    match digits 0 i, digits 0 f with
    | Some a, Some b =>
      if (String.length i + String.length f =? 0)%nat then None
      else
        let scale := (10 ^ Z.of_nat (String.length f))%Z in
        Some (PrimFloat.div (float_of_Z (a * scale + b)) (float_of_Z scale))
    | _, _ => None
    end
  end.

#[global] Instance framework : Framework := {|
  Secret := secret;
  Callable := callable;
  HostError := error;
  from_env_var := λ name strict, EnvVar [name] strict;
  Secret_to_dict := secret_to_dict;
  Secret_from_dict := secret_from_dict;
  serialize_callable := serialize;
  deserialize_callable := deserialize;
  callable_truth := truth;
  py_float := parse_float;
  py_int := parse_int;
|}.

(** The client keeps the keyword arguments it was given.  Like the real
    one it falls back to the environment for the two credentials and
    refuses to start without any. *)
Definition azure_client (env : environ) (kw : ClientArgs) : error + ClientArgs :=
  let key := match kw_api_key kw with
             | Some k => Some k
             | None => env !! "AZURE_OPENAI_API_KEY"
             end in
  let token := match kw_azure_ad_token kw with
               | Some t => Some t
               | None => env !! "AZURE_OPENAI_AD_TOKEN"
               end in
  match key, token, kw_azure_ad_token_provider kw with
  | None, None, None => inl MissingCredentials
  | _, _, _ => inr kw
  end.

#[global] Instance runtime : Runtime := {|
  Client := ClientArgs;
  resolve_value := resolve;
  AzureOpenAI := azure_client;
|}.

(** Sample inputs: a call with the listed arguments, the others left
    out. *)
Definition call_with
    (azure_endpoint azure_deployment : arg (option string))
    (api_key azure_ad_token : arg (option secret))
    (streaming_callback : arg (option callable)) : Call :=
  {| arg_azure_endpoint := azure_endpoint;
     arg_api_version := Omitted;
     arg_azure_deployment := azure_deployment;
     arg_api_key := api_key;
     arg_azure_ad_token := azure_ad_token;
     arg_organization := Omitted;
     arg_streaming_callback := streaming_callback;
     arg_system_prompt := Omitted;
     arg_timeout := Omitted;
     arg_max_retries := Omitted;
     arg_generation_kwargs := Omitted;
     arg_default_headers := Omitted;
     arg_azure_ad_token_provider := Omitted |}.

Definition endpoint : string := "https://example-resource.azure.openai.com/".

(** [AzureOpenAIGenerator()] *)
Definition no_arguments : Call := call_with Omitted Omitted Omitted Omitted Omitted.

(** [AzureOpenAIGenerator(azure_endpoint=endpoint)] *)
Definition endpoint_only : Call :=
  call_with (Passed (Some endpoint)) Omitted Omitted Omitted Omitted.

(** [AzureOpenAIGenerator(azure_endpoint=endpoint, api_key=None, azure_ad_token=None)] *)
Definition no_credentials : Call :=
  call_with (Passed (Some endpoint)) Omitted (Passed None) (Passed None) Omitted.

(** [AzureOpenAIGenerator(azure_endpoint=endpoint, api_key=None,
    azure_ad_token=Secret.from_token("aad-token"))] *)
Definition ad_token_only : Call :=
  call_with (Passed (Some endpoint)) Omitted
            (Passed None) (Passed (Some (Token "aad-token"))) Omitted.

(** [AzureOpenAIGenerator(azure_endpoint=endpoint, azure_deployment=None)] *)
Definition no_deployment : Call :=
  call_with (Passed (Some endpoint)) (Passed None) Omitted Omitted Omitted.

(** [AzureOpenAIGenerator(azure_endpoint=endpoint, streaming_callback=app.on_chunk)] *)
Definition with_callback : Call :=
  call_with (Passed (Some endpoint)) Omitted Omitted Omitted
            (Passed (Some (Function "app.on_chunk"))).

(** [AzureOpenAIGenerator(azure_endpoint=endpoint, streaming_callback=EmptyHandler())] *)
Definition with_false_callback : Call :=
  call_with (Passed (Some endpoint)) Omitted Omitted Omitted
            (Passed (Some EmptyHandler)).

(** The call of the usage example in the class docstring:
    [AzureOpenAIGenerator(azure_endpoint=endpoint,
    api_key=Secret.from_token("<your-api-key>"), azure_deployment="gpt-4o-mini")] *)
Definition usage_example : Call :=
  call_with (Passed (Some endpoint)) (Passed (Some "gpt-4o-mini"))
            (Passed (Some (Token "<your-api-key>"))) Omitted Omitted.

(** Environments. *)
Definition env_key (k : string) : environ := {["AZURE_OPENAI_API_KEY" := k]}.

Definition env_endpoint : environ :=
  <["AZURE_OPENAI_ENDPOINT" := endpoint]> (env_key "sk-one").

Definition env_numbers : environ :=
  <["OPENAI_TIMEOUT" := "45"]> (<["OPENAI_MAX_RETRIES" := "3"]> (env_key "sk-one")).

Definition env_bad_timeout : environ :=
  <["OPENAI_TIMEOUT" := "abc"]> (env_key "sk-one").

End Ref.

(** * Stage lemmas *)

Section Stages.
Context `{Runtime}.

(** ** Basic facts about the result monad and the construction stages *)

Lemma bind_Ok {A B} (m : res A) (k : A → res B) (b : B) :
  m ≫= k = Ok b → ∃ a, m = Ok a ∧ k a = Ok b.
Proof. destruct m as [a|e]; simpl; [eauto | discriminate]. Qed.

Lemma call_Ok {A} (r : HostError + A) (a : A) : call r = Ok a → r = inr a.
Proof. destruct r; simpl; congruence. Qed.

Lemma str_truthy_Some (o : option string) :
  str_truthy o = true → ∃ s, o = Some s ∧ s ≠ "".
Proof.
  destruct o as [s|]; simpl; [|discriminate].
  destruct (String.eqb_spec s ""); [discriminate | eauto].
Qed.

Lemma str_truthy_nonempty (s : string) : s ≠ "" → str_truthy (Some s) = true.
Proof. simpl. destruct (String.eqb_spec s ""); [congruence | done]. Qed.

Lemma endpoint_available_resolved env c :
  endpoint_available env c = str_truthy (resolved_endpoint env c).
Proof.
  unfold endpoint_available, resolved_endpoint.
  destruct (str_truthy (p_azure_endpoint c)) eqn:E; simpl; [by rewrite E | done].
Qed.

Lemma float_env_Ok env name fallback f :
  float_env env name fallback = Ok f ↔ py_float (default fallback (env !! name)) = Some f.
Proof.
  unfold float_env. destruct (py_float _); split; intros; simplify_eq; done.
Qed.

Lemma int_env_Ok env name fallback z :
  int_env env name fallback = Ok z ↔ py_int (default fallback (env !! name)) = Some z.
Proof.
  unfold int_env. destruct (py_int _); split; intros; simplify_eq; done.
Qed.

(** What a successful run of lines 123-145 tells about the call. *)
Lemma init_fields_inv env c f :
  init_fields env c = Ok f →
  resolved_endpoint env c = Some (azure_endpoint f) ∧
  azure_endpoint f ≠ "" ∧
  credential_present c = true ∧
  api_key f = p_api_key c ∧
  azure_ad_token f = p_azure_ad_token c ∧
  generation_kwargs f =
    (if dict_truthy (p_generation_kwargs c) then default ∅ (p_generation_kwargs c) else ∅) ∧
  system_prompt f = p_system_prompt c ∧
  streaming_callback f = p_streaming_callback c ∧
  api_version f = p_api_version c ∧
  azure_deployment f = p_azure_deployment c ∧
  organization f = p_organization c ∧
  model f =
    (if str_truthy (p_azure_deployment c) then default "" (p_azure_deployment c)
     else "gpt-4o-mini") ∧
  effective_timeout env c = Ok (timeout f) ∧
  effective_max_retries env c = Ok (max_retries f) ∧
  default_headers f =
    (if dict_truthy (p_default_headers c) then default ∅ (p_default_headers c) else ∅) ∧
  azure_ad_token_provider f = p_azure_ad_token_provider c.
Proof.
  unfold init_fields, credential_present. intros Hf.
  destruct (str_truthy (resolved_endpoint env c)) eqn:He; simpl in Hf; [|discriminate].
  apply str_truthy_Some in He as (e & He & Hne). rewrite He in Hf. simpl in Hf.
  destruct (is_none (p_api_key c) && is_none (p_azure_ad_token c)); [discriminate|].
  unfold assign_fields in Hf.
  apply bind_Ok in Hf as (t & Ht & Hf).
  apply bind_Ok in Hf as (n & Hn & Hf).
  injection Hf as <-. simpl.
  repeat split; done.
Qed.
Lemma init_fields_no_endpoint env c :
  endpoint_available env c = false →
  init_fields env c = Err (ConfigurationError msg_endpoint).
Proof.
  rewrite endpoint_available_resolved. unfold init_fields. by intros ->.
Qed.

Lemma init_fields_no_credential env c :
  endpoint_available env c = true →
  credential_present c = false →
  init_fields env c = Err (ConfigurationError msg_credential).
Proof.
  rewrite endpoint_available_resolved. unfold init_fields, credential_present.
  intros -> Hc. apply negb_false_iff in Hc. by rewrite Hc.
Qed.

(** Past the two checks, [__init__] is the assignments on the resolved
    endpoint. *)
Lemma init_fields_checked env c :
  endpoint_available env c = true →
  credential_present c = true →
  ∃ e, resolved_endpoint env c = Some e ∧ e ≠ "" ∧
       init_fields env c = assign_fields env c e.
Proof.
  rewrite endpoint_available_resolved. unfold init_fields, credential_present.
  intros He Hc. apply negb_true_iff in Hc. rewrite He, Hc. simpl.
  apply str_truthy_Some in He as (e & -> & Hne). eauto.
Qed.

Lemma assign_fields_not_configuration_error env c e :
  is_configuration_error (assign_fields env c e) = false.
Proof.
  unfold assign_fields, effective_timeout, effective_max_retries.
  destruct (p_timeout c); simpl.
  - destruct (p_max_retries c); simpl; [done|].
    unfold int_env. by destruct (py_int _).
  - unfold float_env. destruct (py_float _); simpl; [|done].
    destruct (p_max_retries c); simpl; [done|].
    unfold int_env. by destruct (py_int _).
Qed.

Lemma resolve_opt_not_configuration_error env o :
  is_configuration_error (resolve_opt env o) = false.
Proof. destruct o as [s|]; simpl; [|done]. by destruct (resolve_value env s). Qed.

(** The only configuration errors of [__init__] are those of the two
    checks. *)
Lemma init_configuration_error env c :
  is_configuration_error (__init__ env c) = is_configuration_error (init_fields env c).
Proof.
  unfold __init__. destruct (init_fields env c) as [f|e]; simpl; [|done].
  unfold client_kwargs.
  pose proof (resolve_opt_not_configuration_error env (api_key f)) as Hk.
  destruct (resolve_opt env (api_key f)) as [key|ek]; simpl; [|done].
  pose proof (resolve_opt_not_configuration_error env (azure_ad_token f)) as Ht.
  destruct (resolve_opt env (azure_ad_token f)) as [token|et]; simpl; [|done].
  by destruct (AzureOpenAI env _).
Qed.

Lemma init_checked_not_configuration_error env c :
  endpoint_available env c = true →
  credential_present c = true →
  is_configuration_error (__init__ env c) = false.
Proof.
  intros He Hc. rewrite init_configuration_error.
  destruct (init_fields_checked env c He Hc) as (e & _ & _ & ->).
  apply assign_fields_not_configuration_error.
Qed.

(** A failure of the first stage is the failure of the whole call: the
    client is never reached. *)
Lemma init_fields_Err env c e :
  init_fields env c = Err e → __init__ env c = Err e.
Proof. unfold __init__. by intros ->. Qed.

Lemma init_inv env c comp :
  __init__ env c = Ok comp →
  init_fields env c = Ok (fields comp) ∧
  ∃ key token,
    resolve_opt env (api_key comp) = Ok key ∧
    resolve_opt env (azure_ad_token comp) = Ok token ∧
    AzureOpenAI env (kwargs_of comp key token) = inr (client comp).
Proof.
  unfold __init__, client_kwargs. intros Hi.
  apply bind_Ok in Hi as (f & Hf & Hi).
  apply bind_Ok in Hi as (kw & Hkw & Hi).
  apply bind_Ok in Hkw as (key & Hkey & Hkw).
  apply bind_Ok in Hkw as (token & Htoken & Hkw).
  apply bind_Ok in Hi as (cl & Hcl & Hi).
  apply call_Ok in Hcl.
  injection Hkw as <-. injection Hi as <-. simpl.
  split; [done|]. eauto.
Qed.

(** ** Serialization *)

(** [to_dict] hands the receiver back as it found it and computes the
    document from the attributes alone. *)
Lemma m_bind_attr {A B} (get : Fields → A) (k : A → Method B) (self : Component) :
  m_bind (attr get) k self = k (get self) self.
Proof. reflexivity. Qed.

Lemma m_bind_serialized {A B} (ser : A → HostError + value) (o : option A)
    (k : value → Method B) (self : Component) :
  m_bind (serialized_or_none ser o) k self =
  match serialized_opt ser o with
  | Ok v => k v self
  | Err e => (Err e, self)
  end.
Proof.
  unfold m_bind, serialized_or_none, serialized_opt, m_call, m_ret.
  destruct o as [a|]; [|reflexivity]. by destruct (ser a).
Qed.

Lemma m_bind_serialized_if_true {B} (ser : Callable → HostError + value)
    (o : option Callable) (k : value → Method B) (self : Component) :
  m_bind (serialized_if_true ser o) k self =
  match serialized_opt ser (true_callable o) with
  | Ok v => k v self
  | Err e => (Err e, self)
  end.
Proof.
  unfold m_bind, serialized_if_true, serialized_opt, true_callable, m_call, m_ret.
  destruct o as [f|]; [|reflexivity].
  destruct (callable_truth f); [|reflexivity]. by destruct (ser f).
Qed.

Lemma to_dict_run (comp : Component) :
  to_dict comp = (document_of comp, comp).
Proof.
  unfold to_dict, document_of.
  rewrite m_bind_attr, m_bind_serialized_if_true.
  destruct (serialized_opt callable_name (true_callable (streaming_callback comp)))
    as [cb|]; [|reflexivity].
  rewrite m_bind_attr, m_bind_serialized_if_true.
  destruct (serialized_opt callable_name (true_callable (azure_ad_token_provider comp)))
    as [pn|]; [|reflexivity].
  rewrite !m_bind_attr, m_bind_serialized.
  destruct (serialized_opt Secret_to_dict (api_key comp)) as [k|]; [|reflexivity].
  rewrite m_bind_attr, m_bind_serialized.
  destruct (serialized_opt Secret_to_dict (azure_ad_token comp)) as [t|]; [|reflexivity].
  rewrite !m_bind_attr. reflexivity.
Qed.

Lemma document_of_inv (f : Fields) d :
  document_of f = Ok d →
  ∃ cb k t pn,
    serialized_opt callable_name (true_callable (streaming_callback f)) = Ok cb ∧
    serialized_opt Secret_to_dict (api_key f) = Ok k ∧
    serialized_opt Secret_to_dict (azure_ad_token f) = Ok t ∧
    serialized_opt callable_name (true_callable (azure_ad_token_provider f)) = Ok pn ∧
    d = default_to_dict (parameters f cb k t pn).
Proof.
  unfold document_of. intros Hd.
  apply bind_Ok in Hd as (cb & Hcb & Hd).
  apply bind_Ok in Hd as (pn & Hpn & Hd).
  apply bind_Ok in Hd as (k & Hk & Hd).
  apply bind_Ok in Hd as (t & Ht & Hd).
  injection Hd as <-. by exists cb, k, t, pn.
Qed.

Lemma serialized_secret_entry (o : option Secret) v :
  serialized_opt Secret_to_dict o = Ok v →
  match o with
  | Some s => Secret_to_dict s = inr v
  | None => v = PNone
  end.
Proof.
  destruct o as [s|]; simpl; intros Hv; [by apply call_Ok | by injection Hv].
Qed.

Lemma serialized_callable_entry (o : option Callable) v :
  serialized_opt callable_name o = Ok v →
  match o with
  | Some f => ∃ n, serialize_callable f = inr n ∧ v = PStr n
  | None => v = PNone
  end.
Proof.
  destruct o as [f|]; simpl; intros Hv; [|by injection Hv].
  apply call_Ok in Hv. unfold callable_name in Hv.
  destruct (serialize_callable f) as [e|n]; [discriminate|].
  injection Hv as <-. eauto.
Qed.


Lemma true_callable_idemp (o : option Callable) :
  true_callable (true_callable o) = true_callable o.
Proof.
  unfold true_callable. destruct o as [g|]; [|done].
  destruct (callable_truth g) eqn:E; [by rewrite E|done].
Qed.

Lemma true_callable_id (o : option Callable) :
  (∀ g, o = Some g → callable_truth g = true) → true_callable o = o.
Proof.
  unfold true_callable. destruct o as [g|]; [|done].
  intros Hg. by rewrite (Hg g eq_refl).
Qed.

Lemma as_serialized_id (f : Fields) : callables_true f → as_serialized f = f.
Proof.
  intros (Hcb & Hpn). unfold as_serialized.
  rewrite (true_callable_id _ Hcb), (true_callable_id _ Hpn). by destruct f.
Qed.

(** An entry computed under the truth test: a name for a callable that is
    present and true, null otherwise. *)
Lemma true_callable_entry (o : option Callable) v :
  serialized_opt callable_name (true_callable o) = Ok v →
  match o with
  | Some f =>
    if callable_truth f then ∃ n, serialize_callable f = inr n ∧ v = PStr n
    else v = PNone
  | None => v = PNone
  end.
Proof.
  intros Hv. apply serialized_callable_entry in Hv. unfold true_callable in Hv.
  destruct o as [f|]; [|done]. by destruct (callable_truth f).
Qed.

(** The document does not tell a false callable from an absent one. *)
Lemma document_of_as_serialized (f : Fields) :
  document_of (as_serialized f) = document_of f.
Proof.
  unfold document_of, as_serialized.
  cbn [streaming_callback azure_ad_token_provider api_key azure_ad_token].
  by rewrite !true_callable_idemp.
Qed.

Lemma float_env_same env env' name fallback :
  env !! name = env' !! name → float_env env name fallback = float_env env' name fallback.
Proof. unfold float_env. by intros ->. Qed.

Lemma int_env_same env env' name fallback :
  env !! name = env' !! name → int_env env name fallback = int_env env' name fallback.
Proof. unfold int_env. by intros ->. Qed.

(** The attributes depend on the environment through three variables
    only. *)
Lemma init_fields_same_settings env env' c :
  same_settings env env' → init_fields env c = init_fields env' c.
Proof.
  intros (He & Ht & Hr).
  unfold init_fields, resolved_endpoint, assign_fields,
    effective_timeout, effective_max_retries.
  rewrite He, (float_env_same env env' _ _ Ht), (int_env_same env env' _ _ Hr).
  done.
Qed.

(** ** Calling the constructor on a component's own attributes *)

Lemma dict_or_empty {V} (g : gmap string V) :
  (if dict_truthy (Some g) then default ∅ (Some g) else ∅) = g.
Proof.
  simpl. destruct (bool_decide (g = ∅)) eqn:E; simpl; [|done].
  by apply bool_decide_eq_true in E.
Qed.

Lemma init_fields_call_of env c f :
  init_fields env c = Ok f → init_fields env (call_of f) = Ok f.
Proof.
  intros Hf.
  apply init_fields_inv in Hf
    as (_ & Hne & Hc & Hk & Ht & _ & _ & _ & _ & Hd & _ & Hm & _).
  unfold init_fields, resolved_endpoint, assign_fields, effective_timeout,
    effective_max_retries, p_azure_endpoint, p_api_key, p_azure_ad_token,
    p_generation_kwargs, p_azure_deployment, p_timeout, p_max_retries,
    p_default_headers, p_system_prompt, p_streaming_callback, p_api_version,
    p_organization, p_azure_ad_token_provider, call_of.
  cbn [or_default arg_azure_endpoint arg_api_version arg_azure_deployment
       arg_api_key arg_azure_ad_token arg_organization arg_streaming_callback
       arg_system_prompt arg_timeout arg_max_retries arg_generation_kwargs
       arg_default_headers arg_azure_ad_token_provider].
  rewrite (str_truthy_nonempty _ Hne). cbn [negb default].
  unfold credential_present in Hc. rewrite <- Hk, <- Ht in Hc.
  apply negb_true_iff in Hc. rewrite Hc.
  rewrite !dict_or_empty. rewrite <- Hd in Hm. rewrite <- Hm.
  simpl. destruct (String.eqb_spec (azure_endpoint f) ""); [done|].
  simpl. by destruct f.
Qed.

Lemma init_fields_call_of_as_serialized env c f :
  init_fields env c = Ok f →
  init_fields env (call_of (as_serialized f)) = Ok (as_serialized f).
Proof.
  intros Hf.
  apply init_fields_inv in Hf
    as (_ & Hne & Hc & Hk & Ht & _ & _ & _ & _ & Hd & _ & Hm & _).
  unfold init_fields, resolved_endpoint, assign_fields, effective_timeout,
    effective_max_retries, p_azure_endpoint, p_api_key, p_azure_ad_token,
    p_generation_kwargs, p_azure_deployment, p_timeout, p_max_retries,
    p_default_headers, p_system_prompt, p_streaming_callback, p_api_version,
    p_organization, p_azure_ad_token_provider, call_of, as_serialized.
  cbn [or_default arg_azure_endpoint arg_api_version arg_azure_deployment
       arg_api_key arg_azure_ad_token arg_organization arg_streaming_callback
       arg_system_prompt arg_timeout arg_max_retries arg_generation_kwargs
       arg_default_headers arg_azure_ad_token_provider
       api_key azure_ad_token generation_kwargs system_prompt streaming_callback
       api_version azure_endpoint azure_deployment organization model timeout
       max_retries default_headers azure_ad_token_provider].
  rewrite (str_truthy_nonempty _ Hne). cbn [negb default].
  unfold credential_present in Hc. rewrite <- Hk, <- Ht in Hc.
  apply negb_true_iff in Hc. rewrite Hc.
  rewrite !dict_or_empty. rewrite <- Hd in Hm. rewrite <- Hm.
  simpl. destruct (String.eqb_spec (azure_endpoint f) ""); [done|].
  reflexivity.
Qed.

Lemma init_call_of env c comp :
  __init__ env c = Ok comp → __init__ env (call_of comp) = Ok comp.
Proof.
  intros Hi. apply init_inv in Hi as (Hf & key & token & Hkey & Htoken & Hcl).
  unfold __init__, client_kwargs.
  rewrite (init_fields_call_of _ _ _ Hf). simpl.
  rewrite Hkey. simpl. rewrite Htoken. simpl. rewrite Hcl. simpl.
  by destruct comp.
Qed.

(** ** Putting secrets and callables back *)

Lemma as_opt_str_of_opt (o : option string) : as_opt_str (of_opt PStr o) = Some o.
Proof. by destruct o. Qed.

Lemma as_opt_secret_of_opt (o : option Secret) :
  as_opt_secret (of_opt PSecret o) = Some o.
Proof. by destruct o. Qed.

Lemma as_opt_callable_of_opt (o : option Callable) :
  as_opt_callable (of_opt PCallable o) = Some o.
Proof. by destruct o. Qed.

Lemma kwarg_lookup {A} (cast : value → option A) (kw : gmap string value) name v a :
  kw !! name = Some v → cast v = Some a → kwarg cast kw name = Ok (Passed a).
Proof. unfold kwarg. by intros -> ->. Qed.

(** Bind the keyword argument [name] of [bind_kwargs]; [H] casts its value. *)
Ltac bound_arg name H :=
  erewrite (kwarg_lookup _ _ name); [cbn [mbind result_bind] | reflexivity | apply H].

Section RoundTrip.
(** The contracts of the two serializer pairs of the framework: what a
    serializer produced, its deserializer turns back into the object.  A
    serialized secret is a document, not null; a callable's name is not
    empty. *)
Hypothesis secret_roundtrip :
  ∀ s v, Secret_to_dict s = inr v → v ≠ PNone ∧ Secret_from_dict v = inr s.
Hypothesis callable_roundtrip :
  ∀ f n, serialize_callable f = inr n → n ≠ "" ∧ deserialize_callable n = inr f.

Lemma deserialize_secret_at_restores (d : gmap string value) key o v :
  serialized_opt Secret_to_dict o = Ok v →
  d !! key = Some v →
  deserialize_secret_at d key = Ok (<[key := of_opt PSecret o]> d).
Proof.
  intros Hv Hd. apply serialized_secret_entry in Hv.
  unfold deserialize_secret_at. rewrite Hd.
  destruct o as [s|]; simpl.
  - destruct (secret_roundtrip s v Hv) as (Hnull & Hfrom).
    destruct v; try done; by rewrite Hfrom.
  - subst v. by rewrite insert_id.
Qed.

Lemma restore_callable_restores (d : gmap string value) key (o : option Callable) v :
  serialized_opt callable_name o = Ok v →
  d !! key = Some v →
  restore_callable key d = Ok (<[key := of_opt PCallable o]> d).
Proof.
  intros Hv Hd. apply serialized_callable_entry in Hv.
  unfold restore_callable. rewrite Hd. simpl.
  destruct o as [f|]; simpl.
  - destruct Hv as (n & Hn & ->).
    destruct (callable_roundtrip f n Hn) as (Hne & Hfrom).
    simpl. destruct (String.eqb_spec n ""); [done|]. simpl.
    by rewrite Hfrom.
  - subst v. simpl. by rewrite insert_id.
Qed.

Lemma bind_kwargs_parameters (f : Fields) :
  bind_kwargs (parameters f (of_opt PCallable (streaming_callback f))
                            (of_opt PSecret (api_key f))
                            (of_opt PSecret (azure_ad_token f))
                            (of_opt PCallable (azure_ad_token_provider f)))
  = Ok (call_of f).
Proof.
  unfold bind_kwargs.
  assert (bool_decide
            (dom (parameters f (of_opt PCallable (streaming_callback f))
                               (of_opt PSecret (api_key f))
                               (of_opt PSecret (azure_ad_token f))
                               (of_opt PCallable (azure_ad_token_provider f)))
             ⊆ param_names) = true) as -> by reflexivity.
  bound_arg "azure_endpoint" (as_opt_str_of_opt (Some (azure_endpoint f))).
  bound_arg "api_version" as_opt_str_of_opt.
  bound_arg "azure_deployment" as_opt_str_of_opt.
  bound_arg "api_key" as_opt_secret_of_opt.
  bound_arg "azure_ad_token" as_opt_secret_of_opt.
  bound_arg "organization" as_opt_str_of_opt.
  bound_arg "streaming_callback" as_opt_callable_of_opt.
  bound_arg "system_prompt" as_opt_str_of_opt.
  bound_arg "timeout" (@eq_refl _ (Some (Some (timeout f)))).
  bound_arg "max_retries" (@eq_refl _ (Some (Some (max_retries f)))).
  bound_arg "generation_kwargs" (@eq_refl _ (Some (Some (generation_kwargs f)))).
  bound_arg "default_headers" (@eq_refl _ (Some (Some (default_headers f)))).
  bound_arg "azure_ad_token_provider" as_opt_callable_of_opt.
  reflexivity.
Qed.

Lemma restored_document (f : Fields) d :
  document_of f = Ok d →
  restored d =
    Ok (default_to_dict
          (parameters (as_serialized f)
             (of_opt PCallable (streaming_callback (as_serialized f)))
             (of_opt PSecret (api_key (as_serialized f)))
             (of_opt PSecret (azure_ad_token (as_serialized f)))
             (of_opt PCallable (azure_ad_token_provider (as_serialized f))))).
Proof.
  intros Hd.
  apply document_of_inv in Hd as (cb & k & t & pn & Hcb & Hk & Ht & Hpn & ->).
  unfold restored.
  change (default_to_dict (parameters f cb k t pn) !! "init_parameters")
    with (Some (PDict (parameters f cb k t pn))).
  cbn [mbind result_bind]. unfold deserialize_secrets_inplace. cbn [foldl mbind result_bind].
  erewrite deserialize_secret_at_restores; [|exact Hk|reflexivity].
  cbn [mbind result_bind].
  erewrite deserialize_secret_at_restores; [|exact Ht|reflexivity].
  cbn [mbind result_bind].
  erewrite restore_callable_restores; [|exact Hcb|reflexivity].
  cbn [mbind result_bind].
  erewrite restore_callable_restores; [|exact Hpn|reflexivity].
  cbn [mbind result_bind].
  reflexivity.
Qed.
End RoundTrip.
End Stages.

(** * The claims *)

Section Claims.
Context `{Runtime}.

(** ** Credentials *)

(** C1 (amended).  With an endpoint available, passing [None] for both
    [api_key] and [azure_ad_token] makes construction fail with the
    credential [ConfigurationError]; the error comes out of the checks that
    precede the client, whatever the client constructor would do.  Leaving
    one of the two arguments out does not: the parameter then holds its
    default, an environment-variable reference, and no
    [ConfigurationError] is raised.  In general none is raised as soon as
    one of the two is not passed as [None]. *)
Theorem C1_credential_required env c :
  endpoint_available env c = true →
  (arg_api_key c = Passed None → arg_azure_ad_token c = Passed None →
     init_fields env c = Err (ConfigurationError msg_credential) ∧
     __init__ env c = Err (ConfigurationError msg_credential)) ∧
  (arg_api_key c = Omitted ∨ arg_azure_ad_token c = Omitted →
     is_configuration_error (__init__ env c) = false) ∧
  (arg_api_key c ≠ Passed None ∨ arg_azure_ad_token c ≠ Passed None →
     is_configuration_error (__init__ env c) = false).
Proof.
  intros He.
  assert (arg_api_key c ≠ Passed None ∨ arg_azure_ad_token c ≠ Passed None →
          is_configuration_error (__init__ env c) = false) as Hpresent.
  { intros Hsome. apply init_checked_not_configuration_error; [done|].
    unfold credential_present, p_api_key, p_azure_ad_token.
    destruct (arg_api_key c) as [|[k|]], (arg_azure_ad_token c) as [|[t|]];
      simpl; try done.
    by destruct Hsome. }
  split; [|split; [|done]].
  - intros Hk Ht.
    assert (init_fields env c = Err (ConfigurationError msg_credential)) as Hf.
    { apply init_fields_no_credential; [done|].
      unfold credential_present, p_api_key, p_azure_ad_token. by rewrite Hk, Ht. }
    split; [done | by apply init_fields_Err].
  - intros [Hom | Hom]; apply Hpresent; rewrite Hom; [by left | by right].
Qed.

(** C6.  With an endpoint present, [api_key=None] and a secret reference
    for [azure_ad_token], construction passes both configuration checks: no
    [ConfigurationError] is raised.  The run is then the assignments, the
    resolution of the token, and the client constructor called with a null
    [api_key] and the resolved token: when these three return, so does
    construction, and the component returned holds that client. *)
Theorem C6_ad_token_only env c tok :
  endpoint_available env c = true →
  arg_api_key c = Passed None →
  arg_azure_ad_token c = Passed (Some tok) →
  is_configuration_error (__init__ env c) = false ∧
  (∃ e, resolved_endpoint env c = Some e ∧
     __init__ env c =
       (f ← assign_fields env c e;
        token ← call (resolve_value env tok);
        cl ← call (AzureOpenAI env (kwargs_of f None token));
        Ok {| fields := f; client := cl |})) ∧
  (∀ e f token cl,
     resolved_endpoint env c = Some e →
     assign_fields env c e = Ok f →
     resolve_value env tok = inr token →
     AzureOpenAI env (kwargs_of f None token) = inr cl →
     __init__ env c = Ok {| fields := f; client := cl |}) ∧
  (∀ comp, __init__ env c = Ok comp →
     ∃ token, resolve_value env tok = inr token ∧
              AzureOpenAI env (kwargs_of comp None token) = inr (client comp)).
Proof.
  intros He Hk Ht.
  assert (credential_present c = true) as Hc.
  { unfold credential_present, p_api_key, p_azure_ad_token. by rewrite Hk, Ht. }
  split; [by apply init_checked_not_configuration_error|].
  destruct (init_fields_checked env c He Hc) as (e & Hres & Hne & Hf).
  assert (__init__ env c =
          (f ← assign_fields env c e;
           token ← call (resolve_value env tok);
           cl ← call (AzureOpenAI env (kwargs_of f None token));
           Ok {| fields := f; client := cl |})) as Hrun.
  { unfold __init__. rewrite Hf.
    destruct (assign_fields env c e) as [f|err] eqn:Ha; simpl; [|done].
    apply init_fields_inv in Hf as (_ & _ & _ & Hak & Hat & _).
    unfold client_kwargs, p_api_key, p_azure_ad_token in *.
    rewrite Hk in Hak. rewrite Ht in Hat. simpl in Hak, Hat.
    rewrite Hak, Hat. simpl.
    by destruct (resolve_value env tok). }
  split; [by exists e|]. split.
  - intros e' f token cl He' Hassign Htoken Hcl.
    rewrite Hres in He'. injection He' as <-.
    rewrite Hrun, Hassign. simpl. rewrite Htoken. simpl. by rewrite Hcl.
  - intros comp Hi. apply init_inv in Hi as (Hfi & key & token & Hkey & Htok & Hcl).
    apply init_fields_inv in Hfi as (_ & _ & _ & Hak & Hat & _).
    unfold p_api_key, p_azure_ad_token in *.
    rewrite Hk in Hak. rewrite Ht in Hat. simpl in Hak, Hat.
    rewrite Hak in Hkey. rewrite Hat in Htok. simpl in Hkey, Htok.
    injection Hkey as <-. apply call_Ok in Htok. eauto.
Qed.

(** C8.  A constructed component holds, in [api_key] and
    [azure_ad_token], the references the call bound to these parameters
    (the argument, or the default reference when it was left out), not
    what they resolve to.  The attributes are the outcome of the
    assignments alone, which never call [resolve_value]; the resolved
    values exist only in the argument list of the client constructor.  So
    the attributes are the same whatever the secrets resolve to, and a
    later [to_dict] leaves them as they are. *)
Theorem C8_references_stored env c comp :
  __init__ env c = Ok comp →
  api_key comp = p_api_key c ∧
  azure_ad_token comp = p_azure_ad_token c ∧
  init_fields env c = Ok (fields comp) ∧
  (∃ key token,
     resolve_opt env (api_key comp) = Ok key ∧
     resolve_opt env (azure_ad_token comp) = Ok token ∧
     AzureOpenAI env (kwargs_of comp key token) = inr (client comp)) ∧
  (to_dict comp).2 = comp ∧
  (∀ (R' : Runtime) env' (comp' : @Component _ R'),
     same_settings env env' →
     @__init__ _ R' env' c = Ok comp' →
     fields comp' = fields comp).
Proof.
  intros Hi. pose proof (init_inv _ _ _ Hi) as (Hf & Hcl).
  pose proof (init_fields_inv _ _ _ Hf) as (_ & _ & _ & Hk & Ht & _).
  repeat split; try done.
  - by rewrite to_dict_run.
  - intros R' env' comp' Hs Hi'.
    apply (@init_inv _ R') in Hi' as (Hf' & _).
    rewrite <- (init_fields_same_settings env env' c Hs), Hf in Hf'.
    by injection Hf'.
Qed.

(** C4.  In the document [to_dict] produces, the [api_key] and
    [azure_ad_token] entries are what the references' own [to_dict] returns,
    and null for a reference that is [None].  The document does not depend
    on what the secrets resolve to: two components with the same attributes,
    whatever their clients were given, serialize alike; and the same call,
    run in two environments that differ at most outside the endpoint,
    timeout and retry variables and against any two resolvers and clients,
    serializes to the same document. *)
Theorem C4_secrets_serialized_by_reference (comp : Component) :
  (∀ d, (to_dict comp).1 = Ok d →
     ∃ ip, d !! "init_parameters" = Some (PDict ip) ∧
       match api_key comp with
       | Some s => ∃ v, Secret_to_dict s = inr v ∧ ip !! "api_key" = Some v
       | None => ip !! "api_key" = Some PNone
       end ∧
       match azure_ad_token comp with
       | Some s => ∃ v, Secret_to_dict s = inr v ∧ ip !! "azure_ad_token" = Some v
       | None => ip !! "azure_ad_token" = Some PNone
       end) ∧
  (∀ (R' : Runtime) (comp' : @Component _ R'),
     fields comp' = fields comp →
     (to_dict comp').1 = (to_dict comp).1) ∧
  (∀ (R' : Runtime) env env' c (comp' : @Component _ R'),
     same_settings env env' →
     __init__ env c = Ok comp →
     @__init__ _ R' env' c = Ok comp' →
     (to_dict comp').1 = (to_dict comp).1).
Proof.
  split; [|split].
  - intros d. rewrite to_dict_run. simpl. intros Hd.
    apply document_of_inv in Hd as (cb & k & t & pn & _ & Hk & Ht & _ & ->).
    exists (parameters comp cb k t pn). split; [done|].
    apply serialized_secret_entry in Hk, Ht.
    split.
    + destruct (api_key comp); [by exists k | by subst k].
    + destruct (azure_ad_token comp); [by exists t | by subst t].
  - intros R' comp' Hsame. rewrite !to_dict_run. simpl. by rewrite Hsame.
  - intros R' env env' c comp' Hs Hi Hi'.
    rewrite !to_dict_run. simpl.
    apply init_inv in Hi as (Hf & _).
    apply (@init_inv _ R') in Hi' as (Hf' & _).
    rewrite <- (init_fields_same_settings env env' c Hs), Hf in Hf'.
    injection Hf' as ->. done.
Qed.

(** C9 (amended).  [to_dict] is a projection of the stored
    configuration: it returns the receiver unchanged, and its result is a
    function of the attributes.  The document is the named-type wrapper
    around an [init_parameters] mapping whose keys are exactly the thirteen
    configuration keys; each of the two callable entries holds the name
    [serialize_callable] gives when the callable is present and true, and
    null otherwise, that is when the callable is absent and also when it
    is present but false; the other non-secret entries are the attributes
    themselves. *)
Theorem C9_to_dict_projection (comp : Component) :
  (to_dict comp).2 = comp ∧
  (to_dict comp).1 = document_of comp ∧
  (∀ d, (to_dict comp).1 = Ok d →
     dom d = {["type"; "init_parameters"]} ∧
     d !! "type" = Some (PStr class_name) ∧
     ∃ ip, d !! "init_parameters" = Some (PDict ip) ∧
       dom ip = param_names ∧
       match streaming_callback comp with
       | Some f =>
         if callable_truth f
         then ∃ n, serialize_callable f = inr n ∧
                   ip !! "streaming_callback" = Some (PStr n)
         else ip !! "streaming_callback" = Some PNone
       | None => ip !! "streaming_callback" = Some PNone
       end ∧
       match azure_ad_token_provider comp with
       | Some f =>
         if callable_truth f
         then ∃ n, serialize_callable f = inr n ∧
                   ip !! "azure_ad_token_provider" = Some (PStr n)
         else ip !! "azure_ad_token_provider" = Some PNone
       | None => ip !! "azure_ad_token_provider" = Some PNone
       end ∧
       ip !! "azure_endpoint" = Some (PStr (azure_endpoint comp)) ∧
       ip !! "azure_deployment" = Some (of_opt PStr (azure_deployment comp)) ∧
       ip !! "organization" = Some (of_opt PStr (organization comp)) ∧
       ip !! "api_version" = Some (of_opt PStr (api_version comp)) ∧
       ip !! "generation_kwargs" = Some (PDict (generation_kwargs comp)) ∧
       ip !! "system_prompt" = Some (of_opt PStr (system_prompt comp)) ∧
       ip !! "timeout" = Some (PFloat (timeout comp)) ∧
       ip !! "max_retries" = Some (PInt (max_retries comp)) ∧
       ip !! "default_headers" = Some (PDict (default_headers comp))).
Proof.
  rewrite to_dict_run. simpl.
  split; [done|]. split; [done|]. intros d Hd.
  apply document_of_inv in Hd as (cb & k & t & pn & Hcb & _ & _ & Hpn & ->).
  split; [done|]. split; [done|].
  exists (parameters comp cb k t pn).
  apply true_callable_entry in Hcb, Hpn.
  repeat split; try done.
  - destruct (streaming_callback comp) as [f|]; [|by subst cb].
    destruct (callable_truth f); [|by subst cb].
    destruct Hcb as (n & Hn & ->). by exists n.
  - destruct (azure_ad_token_provider comp) as [f|]; [|by subst pn].
    destruct (callable_truth f); [|by subst pn].
    destruct Hpn as (n & Hn & ->). by exists n.
Qed.
(** ** Endpoint *)

(** C3.  When the [azure_endpoint] argument is absent or the empty
    string, the endpoint is read from [AZURE_OPENAI_ENDPOINT].  If that
    variable is absent or empty too, construction fails with the endpoint
    [ConfigurationError]; otherwise the endpoint a constructed component
    stores is the value of the variable. *)
Theorem C3_endpoint_from_environment env c :
  p_azure_endpoint c = None ∨ p_azure_endpoint c = Some "" →
  resolved_endpoint env c = env !! "AZURE_OPENAI_ENDPOINT" ∧
  (env !! "AZURE_OPENAI_ENDPOINT" = None ∨ env !! "AZURE_OPENAI_ENDPOINT" = Some "" →
     init_fields env c = Err (ConfigurationError msg_endpoint) ∧
     __init__ env c = Err (ConfigurationError msg_endpoint)) ∧
  (∀ comp, __init__ env c = Ok comp →
     env !! "AZURE_OPENAI_ENDPOINT" = Some (azure_endpoint comp) ∧
     azure_endpoint comp ≠ "").
Proof.
  intros Harg.
  assert (str_truthy (p_azure_endpoint c) = false) as Hfalse.
  { by destruct Harg as [-> | ->]. }
  assert (resolved_endpoint env c = env !! "AZURE_OPENAI_ENDPOINT") as Hres.
  { unfold resolved_endpoint. by rewrite Hfalse. }
  split; [done|]. split.
  - intros Henv.
    assert (init_fields env c = Err (ConfigurationError msg_endpoint)) as Hf.
    { apply init_fields_no_endpoint. unfold endpoint_available. rewrite Hfalse.
      by destruct Henv as [-> | ->]. }
    split; [done | by apply init_fields_Err].
  - intros comp Hi. apply init_inv in Hi as (Hf & _).
    apply init_fields_inv in Hf as (He & Hne & _).
    rewrite Hres in He. done.
Qed.

(** ** Numeric options *)

(** C5.  In a constructed component, an unset [timeout] is the [float]
    of [OPENAI_TIMEOUT] when the variable is set and the [float] of the
    literal "30.0" otherwise; an unset [max_retries] is the [int] of
    [OPENAI_MAX_RETRIES] when set and the [int] of "5" otherwise.  So with
    a [float] that reads "45" as 45.0 and "30.0" as 30.0, and an [int] that
    reads "3" as 3 and "5" as 5, these are the values.  An argument that is
    passed wins over the environment. *)
Theorem C5_numeric_defaults env c comp :
  __init__ env c = Ok comp →
  (p_timeout c = None →
     (∀ s, env !! "OPENAI_TIMEOUT" = Some s → py_float s = Some (timeout comp)) ∧
     (env !! "OPENAI_TIMEOUT" = None → py_float "30.0" = Some (timeout comp)) ∧
     (env !! "OPENAI_TIMEOUT" = Some "45" → py_float "45" = Some 45%float →
        timeout comp = 45%float) ∧
     (env !! "OPENAI_TIMEOUT" = None → py_float "30.0" = Some 30%float →
        timeout comp = 30%float)) ∧
  (p_max_retries c = None →
     (∀ s, env !! "OPENAI_MAX_RETRIES" = Some s → py_int s = Some (max_retries comp)) ∧
     (env !! "OPENAI_MAX_RETRIES" = None → py_int "5" = Some (max_retries comp)) ∧
     (env !! "OPENAI_MAX_RETRIES" = Some "3" → py_int "3" = Some 3%Z →
        max_retries comp = 3%Z) ∧
     (env !! "OPENAI_MAX_RETRIES" = None → py_int "5" = Some 5%Z →
        max_retries comp = 5%Z)) ∧
  (∀ t, p_timeout c = Some t → timeout comp = t) ∧
  (∀ n, p_max_retries c = Some n → max_retries comp = n).
Proof.
  intros Hi. apply init_inv in Hi as (Hf & _).
  apply init_fields_inv in Hf
    as (_ & _ & _ & _ & _ & _ & _ & _ & _ & _ & _ & _ & Ht & Hn & _).
  unfold effective_timeout in Ht. unfold effective_max_retries in Hn.
  split; [|split; [|split]].
  - intros Hp. rewrite Hp in Ht. apply float_env_Ok in Ht.
    repeat split.
    + intros s Hs. by rewrite Hs in Ht.
    + intros Hs. by rewrite Hs in Ht.
    + intros Hs Hparse. rewrite Hs in Ht. simpl in Ht. congruence.
    + intros Hs Hparse. rewrite Hs in Ht. simpl in Ht. congruence.
  - intros Hp. rewrite Hp in Hn. apply int_env_Ok in Hn.
    repeat split.
    + intros s Hs. by rewrite Hs in Hn.
    + intros Hs. by rewrite Hs in Hn.
    + intros Hs Hparse. rewrite Hs in Hn. simpl in Hn. congruence.
    + intros Hs Hparse. rewrite Hs in Hn. simpl in Hn. congruence.
  - intros t Hp. rewrite Hp in Ht. by injection Ht.
  - intros n Hp. rewrite Hp in Hn. by injection Hn.
Qed.

(** C7 (amended).  With an endpoint available and a credential present,
    an unset [timeout] and an [OPENAI_TIMEOUT] that [float] rejects make
    construction fail with that parse error.  An unset [max_retries] and an
    [OPENAI_MAX_RETRIES] that [int] rejects make it fail with a parse error
    as well: the one of [int] when the timeout was obtained, the one of
    [float] otherwise.  Neither is a [ConfigurationError]. *)
Theorem C7_parse_error_propagates env c s :
  endpoint_available env c = true →
  credential_present c = true →
  (p_timeout c = None → env !! "OPENAI_TIMEOUT" = Some s → py_float s = None →
     __init__ env c = Err (ParseError "float" s)) ∧
  (p_max_retries c = None → env !! "OPENAI_MAX_RETRIES" = Some s → py_int s = None →
     is_parse_error (__init__ env c) = true ∧
     is_configuration_error (__init__ env c) = false ∧
     (is_ok (effective_timeout env c) = true →
        __init__ env c = Err (ParseError "int" s))).
Proof.
  intros He Hc.
  destruct (init_fields_checked env c He Hc) as (e & _ & _ & Hf).
  split.
  - intros Hp Hs Hparse. apply init_fields_Err. rewrite Hf.
    unfold assign_fields, effective_timeout, float_env.
    rewrite Hp, Hs. simpl. by rewrite Hparse.
  - intros Hp Hs Hparse.
    assert (effective_max_retries env c = Err (ParseError "int" s)) as Hn.
    { unfold effective_max_retries, int_env. rewrite Hp, Hs. simpl. by rewrite Hparse. }
    split; [|split].
    + unfold __init__. rewrite Hf. unfold assign_fields.
      destruct (effective_timeout env c) as [t|err] eqn:Ht; simpl.
      * by rewrite Hn.
      * unfold effective_timeout in Ht. destruct (p_timeout c); [discriminate|].
        unfold float_env in Ht. destruct (py_float _); [discriminate|].
        by injection Ht as <-.
    + by apply init_checked_not_configuration_error.
    + intros Hok. apply init_fields_Err. rewrite Hf. unfold assign_fields.
      destruct (effective_timeout env c); [|discriminate]. simpl. by rewrite Hn.
Qed.

(** ** Normalised options *)

(** C10 (amended).  In a constructed component, [generation_kwargs] and
    [default_headers] that were [None] or left out are stored as the empty
    mapping, and an [azure_deployment] of [None] gives the [model]
    "gpt-4o-mini" while [azure_deployment] itself stays [None].  [to_dict]
    emits the stored mappings, so the empty mapping and not null; it emits
    [azure_deployment] as stored, so null, and has no [model] entry. *)
Theorem C10_normalised_options env c comp :
  __init__ env c = Ok comp →
  (p_generation_kwargs c = None → generation_kwargs comp = ∅) ∧
  (p_default_headers c = None → default_headers comp = ∅) ∧
  (p_azure_deployment c = None →
     model comp = "gpt-4o-mini" ∧ azure_deployment comp = None) ∧
  (∀ d, (to_dict comp).1 = Ok d →
     ∃ ip, d !! "init_parameters" = Some (PDict ip) ∧
       ip !! "generation_kwargs" = Some (PDict (generation_kwargs comp)) ∧
       ip !! "default_headers" = Some (PDict (default_headers comp)) ∧
       ip !! "azure_deployment" = Some (of_opt PStr (azure_deployment comp)) ∧
       ip !! "model" = None).
Proof.
  intros Hi. apply init_inv in Hi as (Hf & _).
  apply init_fields_inv in Hf
    as (_ & _ & _ & _ & _ & Hg & _ & _ & _ & Hd & _ & Hm & _ & _ & Hh & _).
  split; [|split; [|split]].
  - intros Hp. by rewrite Hg, Hp.
  - intros Hp. by rewrite Hh, Hp.
  - intros Hp. by rewrite Hm, Hd, Hp.
  - intros d. rewrite to_dict_run. simpl. intros Hdoc.
    apply document_of_inv in Hdoc as (cb & k & t & pn & _ & _ & _ & _ & ->).
    by exists (parameters comp cb k t pn).
Qed.
(** ** Round trip *)

(** C2 (amended).  [from_dict] rebuilds the parameters from the document
    and calls the constructor on them, so the constructor's two checks are
    applied to the reconstructed parameters as they are to the arguments of
    a direct call.  Assume a framework in which [Secret.from_dict] and
    [deserialize_callable] invert [Secret.to_dict] and [serialize_callable],
    a serialized secret is not null and a callable's name is not empty.
    Whenever [to_dict] returns a document for a constructed component, the
    parameters [from_dict] reconstructs from it are the component's own
    attributes, a callable that is false being replaced by [None] (it was
    serialized as null); every component [from_dict] returns in the same
    environment has these attributes and serializes to the same document;
    and when the callables the component holds are true, as function
    objects are, [from_dict] succeeds and returns a component equal to the
    original in every attribute, client included.  The document is the
    value [to_dict] returned: [from_dict] rewrites the dictionary it is
    given in place, and the comparison is with the document as it was
    before that call. *)
Theorem C2_roundtrip env :
  (∀ s v, Secret_to_dict s = inr v → v ≠ PNone ∧ Secret_from_dict v = inr s) →
  (∀ f n, serialize_callable f = inr n → n ≠ "" ∧ deserialize_callable n = inr f) →
  (∀ data, from_dict env data = (c ← reconstructed data; __init__ env c)) ∧
  (∀ data c,
     reconstructed data = Ok c →
     (endpoint_available env c = false →
      from_dict env data = Err (ConfigurationError msg_endpoint)) ∧
     (endpoint_available env c = true → credential_present c = false →
      from_dict env data = Err (ConfigurationError msg_credential)) ∧
     (endpoint_available env c = true → credential_present c = true →
      is_configuration_error (from_dict env data) = false)) ∧
  (∀ c comp d,
     __init__ env c = Ok comp →
     (to_dict comp).1 = Ok d →
     reconstructed d = Ok (call_of (as_serialized comp)) ∧
     from_dict env d = __init__ env (call_of (as_serialized comp)) ∧
     (∀ comp', from_dict env d = Ok comp' →
        fields comp' = as_serialized comp ∧ (to_dict comp').1 = Ok d) ∧
     (callables_true comp → from_dict env d = Ok comp)).
Proof.
  intros Hsecret Hcallable.
  assert (∀ data, from_dict env data = (c ← reconstructed data; __init__ env c))
    as Hdelegate.
  { intros data. unfold from_dict, reconstructed.
    destruct (restored data) as [data'|e]; simpl; [|done].
    unfold default_from_dict.
    destruct (data' !! "type") as [[]|]; try done.
    destruct (String.eqb _ _); [|done].
    destruct (data' !! "init_parameters") as [[]|]; simpl; try done.
    all: by destruct (bind_kwargs _). }
  split; [done|]. split.
  { intros data c Hrec. rewrite Hdelegate, Hrec. cbn [mbind result_bind].
    split; [|split].
    - intros He. unfold __init__. by rewrite (init_fields_no_endpoint _ _ He).
    - intros He Hc. unfold __init__. by rewrite (init_fields_no_credential _ _ He Hc).
    - apply init_checked_not_configuration_error. }
  intros c comp d Hi Hd. rewrite to_dict_run in Hd. simpl in Hd.
  assert (reconstructed d = Ok (call_of (as_serialized comp))) as Hrec.
  { unfold reconstructed.
    rewrite (restored_document Hsecret Hcallable _ _ Hd).
    cbn [mbind result_bind]. unfold default_from_dict.
    change (default_to_dict ?ip !! "type") with (@Some value (PStr class_name)).
    change (default_to_dict ?ip !! "init_parameters") with (@Some value (PDict ip)).
    cbv beta iota. rewrite String.eqb_refl.
    cbn [mbind result_bind].
    by rewrite bind_kwargs_parameters. }
  assert (from_dict env d = __init__ env (call_of (as_serialized comp))) as Hfrom.
  { by rewrite Hdelegate, Hrec. }
  split; [done|]. split; [done|]. split.
  - intros comp' Hi'. rewrite Hfrom in Hi'.
    apply init_inv in Hi as (Hf & _). apply init_inv in Hi' as (Hf' & _).
    rewrite (init_fields_call_of_as_serialized _ _ _ Hf) in Hf'.
    injection Hf' as Heq. split; [done|].
    rewrite to_dict_run. simpl. by rewrite <- Heq, document_of_as_serialized.
  - intros Htrue. rewrite Hfrom, (as_serialized_id _ Htrue).
    by apply init_call_of with c.
Qed.
End Claims.

(** * Runs on the reference host *)

(** The contracts of the two serializer pairs hold on the reference host. *)
Lemma reference_strings_of_fmap (names : list string) :
  Ref.strings_of (PStr <$> names) = Some names.
Proof.
  induction names as [|n names IH]; [done|].
  rewrite fmap_cons. cbn [Ref.strings_of]. by rewrite IH.
Qed.

Lemma reference_secret_contract (s : Ref.secret) (v : Ref.rvalue) :
  Ref.secret_to_dict s = inr v → v ≠ PNone ∧ Ref.secret_from_dict v = inr s.
Proof.
  destruct s as [tok | names strict]; simpl; intros Hv; [discriminate|].
  injection Hv as <-. split; [done|].
  unfold Ref.secret_from_dict.
  change ((<["type" := PStr "env_var"]>
           (<["env_vars" := PList (PStr <$> names)]>
           (<["strict" := PBool strict]> (∅ : gmap string Ref.rvalue)))) !! "type")
    with (Some (PStr "env_var" : Ref.rvalue)).
  change ((<["type" := PStr "env_var"]>
           (<["env_vars" := PList (PStr <$> names)]>
           (<["strict" := PBool strict]> (∅ : gmap string Ref.rvalue)))) !! "env_vars")
    with (Some (PList (PStr <$> names) : Ref.rvalue)).
  change ((<["type" := PStr "env_var"]>
           (<["env_vars" := PList (PStr <$> names)]>
           (<["strict" := PBool strict]> (∅ : gmap string Ref.rvalue)))) !! "strict")
    with (Some (PBool strict : Ref.rvalue)).
  cbn [String.eqb Ascii.eqb Bool.eqb]. by rewrite reference_strings_of_fmap.
Qed.

Lemma reference_callable_contract (f : Ref.callable) (n : string) :
  Ref.serialize f = inr n → n ≠ "" ∧ Ref.deserialize n = inr f.
Proof.
  destruct f as [q| |]; simpl; [|discriminate|discriminate].
  unfold Ref.deserialize. destruct (String.eqb_spec q ""); [discriminate|].
  intros Hn. injection Hn as <-. split; [done|].
  by destruct (String.eqb_spec q "").
Qed.

(** C1, counterexample.  [AzureOpenAIGenerator(azure_endpoint=...)] with
    [AZURE_OPENAI_API_KEY] set: an endpoint is available, neither credential
    is passed, and construction succeeds.  With the variable unset no
    [ConfigurationError] is raised either. *)
Lemma C1_omitted_credentials_counterexample :
  endpoint_available (Ref.env_key "sk-one") Ref.endpoint_only = true ∧
  arg_api_key Ref.endpoint_only = Omitted ∧
  arg_azure_ad_token Ref.endpoint_only = Omitted ∧
  is_ok (__init__ (Ref.env_key "sk-one") Ref.endpoint_only) = true ∧
  is_configuration_error (__init__ (Ref.env_key "sk-one") Ref.endpoint_only) = false ∧
  is_configuration_error (__init__ ∅ Ref.endpoint_only) = false.
Proof. repeat split; vm_compute; reflexivity. Qed.

(** C1 on an instance: endpoint given, both credentials passed as [None]. *)
Lemma C1_credential_required_witness :
  __init__ (Ref.env_key "sk-one") Ref.no_credentials
  = Err (ConfigurationError msg_credential).
Proof.
  destruct (C1_credential_required (Ref.env_key "sk-one") Ref.no_credentials eq_refl)
    as (Hnone & _ & _).
  apply Hnone; reflexivity.
Defined.

(** C3 on two instances: [AzureOpenAIGenerator()] with an empty environment,
    and with the endpoint and key variables set. *)
Lemma C3_endpoint_from_environment_witness :
  __init__ ∅ Ref.no_arguments = Err (ConfigurationError msg_endpoint) ∧
  ∃ comp, __init__ Ref.env_endpoint Ref.no_arguments = Ok comp ∧
          azure_endpoint comp = Ref.endpoint.
Proof.
  split.
  - destruct (C3_endpoint_from_environment ∅ Ref.no_arguments (or_introl eq_refl))
      as (_ & Hnone & _).
    apply Hnone. by left.
  - eexists. split; [reflexivity|].
    destruct (C3_endpoint_from_environment Ref.env_endpoint Ref.no_arguments
                (or_introl eq_refl)) as (_ & _ & Hsome).
    edestruct Hsome as [Henv _]; [reflexivity|].
    apply (inj Some). rewrite <- Henv. reflexivity.
Defined.

(** C6 on an instance: [api_key=None] and a token secret, empty environment. *)
Lemma C6_ad_token_only_witness :
  is_configuration_error (__init__ ∅ Ref.ad_token_only) = false ∧
  ∃ comp, __init__ ∅ Ref.ad_token_only = Ok comp ∧
          kw_api_key (client comp) = None ∧
          kw_azure_ad_token (client comp) = Some "aad-token".
Proof.
  destruct (C6_ad_token_only ∅ Ref.ad_token_only (Ref.Token "aad-token")
              eq_refl eq_refl eq_refl) as (Hno & _ & Hbuilt & _).
  split; [exact Hno|].
  eexists. split; [eapply Hbuilt; reflexivity|]. split; reflexivity.
Defined.

(** C7, counterexample.  [AzureOpenAIGenerator()] with no endpoint anywhere
    and [OPENAI_TIMEOUT=abc]: [timeout] is unset and the variable does not
    parse, yet construction fails with the endpoint [ConfigurationError]; the
    parse is never reached.  The same happens, with the credential error, when
    the endpoint is given and both credentials are [None]. *)
Lemma C7_checks_come_first_counterexample :
  p_timeout Ref.no_arguments = None ∧
  Ref.env_bad_timeout !! "OPENAI_TIMEOUT" = Some "abc" ∧
  py_float "abc" = None ∧
  __init__ Ref.env_bad_timeout Ref.no_arguments
    = Err (ConfigurationError msg_endpoint) ∧
  p_timeout Ref.no_credentials = None ∧
  __init__ Ref.env_bad_timeout Ref.no_credentials
    = Err (ConfigurationError msg_credential).
Proof. repeat split; vm_compute; reflexivity. Qed.

(** C7 on an instance: endpoint given, key variable set, [OPENAI_TIMEOUT=abc]. *)
Lemma C7_parse_error_propagates_witness :
  __init__ Ref.env_bad_timeout Ref.endpoint_only = Err (ParseError "float" "abc").
Proof.
  destruct (C7_parse_error_propagates Ref.env_bad_timeout Ref.endpoint_only "abc"
              eq_refl eq_refl) as [Hfloat _].
  apply Hfloat; reflexivity.
Defined.

(** C5 on two instances: the variables set to "45" and "3", and unset. *)
Lemma C5_numeric_defaults_witness :
  (∃ comp, __init__ Ref.env_numbers Ref.endpoint_only = Ok comp ∧
           timeout comp = 45%float ∧ max_retries comp = 3%Z) ∧
  (∃ comp, __init__ (Ref.env_key "sk-one") Ref.endpoint_only = Ok comp ∧
           timeout comp = 30%float ∧ max_retries comp = 5%Z).
Proof.
  split.
  - eexists. split; [reflexivity|].
    edestruct (C5_numeric_defaults Ref.env_numbers Ref.endpoint_only)
      as (Ht & Hn & _); [reflexivity|].
    destruct (Ht eq_refl) as (_ & _ & H45 & _).
    destruct (Hn eq_refl) as (_ & _ & H3 & _).
    split; [apply H45 | apply H3]; reflexivity.
  - eexists. split; [reflexivity|].
    edestruct (C5_numeric_defaults (Ref.env_key "sk-one") Ref.endpoint_only)
      as (Ht & Hn & _); [reflexivity|].
    destruct (Ht eq_refl) as (_ & _ & _ & H30).
    destruct (Hn eq_refl) as (_ & _ & _ & H5).
    split; [apply H30 | apply H5]; reflexivity.
Defined.

(** C8 on an instance: the default references are stored, the client gets the
    value the key reference resolves to. *)
Lemma C8_references_stored_witness :
  ∃ comp, __init__ (Ref.env_key "sk-one") Ref.endpoint_only = Ok comp ∧
          api_key comp = Some (Ref.EnvVar ["AZURE_OPENAI_API_KEY"] false) ∧
          azure_ad_token comp = Some (Ref.EnvVar ["AZURE_OPENAI_AD_TOKEN"] false) ∧
          kw_api_key (client comp) = Some "sk-one".
Proof.
  eexists. split; [reflexivity|].
  edestruct (C8_references_stored (Ref.env_key "sk-one") Ref.endpoint_only)
    as (Hk & Ht & _); [reflexivity|].
  split; [exact Hk|]. split; [exact Ht|]. reflexivity.
Defined.

(** C4 on an instance: the same call under two values of the key variable;
    the clients differ, the documents do not. *)
Lemma C4_secrets_serialized_by_reference_witness :
  ∃ comp comp',
    __init__ (Ref.env_key "sk-one") Ref.endpoint_only = Ok comp ∧
    __init__ (Ref.env_key "sk-two") Ref.endpoint_only = Ok comp' ∧
    kw_api_key (client comp) = Some "sk-one" ∧
    kw_api_key (client comp') = Some "sk-two" ∧
    (to_dict comp').1 = (to_dict comp).1 ∧
    ∃ d ip v,
      (to_dict comp).1 = Ok d ∧
      d !! "init_parameters" = Some (PDict ip) ∧
      Ref.secret_to_dict (Ref.EnvVar ["AZURE_OPENAI_API_KEY"] false) = inr v ∧
      ip !! "api_key" = Some v.
Proof.
  eexists _, _. split; [reflexivity|]. split; [reflexivity|].
  split; [reflexivity|]. split; [reflexivity|]. split.
  - eapply (proj2 (proj2 (C4_secrets_serialized_by_reference _)) Ref.runtime
              (Ref.env_key "sk-one") (Ref.env_key "sk-two") Ref.endpoint_only).
    + repeat split.
    + reflexivity.
    + reflexivity.
  - lazymatch goal with
    | |- ∃ d ip v, (to_dict ?comp).1 = Ok d ∧ _ =>
      eexists;
      edestruct (proj1 (C4_secrets_serialized_by_reference comp))
        as (ip & Hip & Hk & _); [reflexivity|]
    end.
    destruct Hk as (v & Hv & Hentry).
    exists ip, v. repeat split; [exact Hip | exact Hv | exact Hentry].
Defined.

(** C9, counterexample.
    [AzureOpenAIGenerator(azure_endpoint=..., streaming_callback=h)] where
    [h] is an instance of a class with [__call__] whose [__len__] returns 0:
    the component holds the callback, the test of line 167 is on its truth
    value, and the document carries null for it, not a name. *)
Lemma C9_false_callable_counterexample :
  ∃ comp d ip,
    __init__ (Ref.env_key "sk-one") Ref.with_false_callback = Ok comp ∧
    streaming_callback comp = Some Ref.EmptyHandler ∧
    callable_truth Ref.EmptyHandler = false ∧
    to_dict comp = (Ok d, comp) ∧
    d !! "init_parameters" = Some (PDict ip) ∧
    ip !! "streaming_callback" = Some PNone.
Proof. eexists _, _, _. repeat split. Qed.

(** C9 on an instance: a component with a streaming callback, a function,
    and no token provider. *)
Lemma C9_to_dict_projection_witness :
  ∃ comp,
    __init__ (Ref.env_key "sk-one") Ref.with_callback = Ok comp ∧
    ∃ d,
      to_dict comp = (Ok d, comp) ∧
      ∃ ip,
        d !! "init_parameters" = Some (PDict ip) ∧
        dom ip = param_names ∧
        ip !! "streaming_callback" = Some (PStr "app.on_chunk") ∧
        ip !! "azure_ad_token_provider" = Some PNone.
Proof.
  eexists. split; [reflexivity|].
  lazymatch goal with
  | |- ∃ d, to_dict ?comp = _ ∧ _ =>
    destruct (C9_to_dict_projection comp) as (_ & _ & Hdoc)
  end.
  eexists. split; [reflexivity|].
  edestruct Hdoc as (_ & _ & ip & Hip & Hdom & Hcb & Hpn & _); [reflexivity|].
  exists ip. split; [exact Hip|]. split; [exact Hdom|].
  destruct Hcb as (n & Hn & Hcb).
  assert (n = "app.on_chunk") as -> by (vm_compute in Hn; congruence).
  split; [exact Hcb | exact Hpn].
Defined.

(** C10, counterexample.
    [AzureOpenAIGenerator(azure_endpoint=..., azure_deployment=None)]: the
    component's [model] is "gpt-4o-mini", but the document [to_dict] makes
    of it carries [azure_deployment] as null and has no [model] entry, so the
    normalised model name is not what is serialized. *)
Lemma C10_deployment_serialized_null_counterexample :
  ∃ comp d ip,
    arg_azure_deployment Ref.no_deployment = Passed None ∧
    __init__ (Ref.env_key "sk-one") Ref.no_deployment = Ok comp ∧
    model comp = "gpt-4o-mini" ∧
    (to_dict comp).1 = Ok d ∧
    d !! "init_parameters" = Some (PDict ip) ∧
    ip !! "azure_deployment" = Some PNone ∧
    ip !! "model" = None.
Proof. eexists _, _, _. repeat split. Qed.

(** C10 on an instance: [azure_deployment=None], no options passed. *)
Lemma C10_normalised_options_witness :
  ∃ comp,
    __init__ (Ref.env_key "sk-one") Ref.no_deployment = Ok comp ∧
    generation_kwargs comp = ∅ ∧
    default_headers comp = ∅ ∧
    model comp = "gpt-4o-mini" ∧
    azure_deployment comp = None ∧
    ∃ d,
      (to_dict comp).1 = Ok d ∧
      ∃ ip,
        d !! "init_parameters" = Some (PDict ip) ∧
        ip !! "generation_kwargs" = Some (PDict (generation_kwargs comp)) ∧
        ip !! "default_headers" = Some (PDict (default_headers comp)) ∧
        ip !! "azure_deployment" = Some (of_opt PStr (azure_deployment comp)).
Proof.
  eexists. split; [reflexivity|].
  edestruct (C10_normalised_options (Ref.env_key "sk-one") Ref.no_deployment)
    as (Hg & Hh & Hm & Hdoc); [reflexivity|].
  split; [by apply Hg|]. split; [by apply Hh|].
  split; [by apply Hm|]. split; [by apply Hm|].
  eexists. split; [reflexivity|].
  edestruct Hdoc as (ip & Hip & Hig & Hih & Hid & _); [reflexivity|].
  exists ip. split; [exact Hip|].
  split; [exact Hig|]. split; [exact Hih | exact Hid].
Defined.

(** C2, counterexample.  The component of the usage example in the class
    docstring, built with [api_key=Secret.from_token(...)]: it is
    constructed from an endpoint and a credential reference, and [to_dict]
    raises on it, the literal secret having no serialized form.  There is no
    document for [from_dict] to read. *)
Lemma C2_literal_secret_counterexample :
  endpoint_available ∅ Ref.usage_example = true ∧
  credential_present Ref.usage_example = true ∧
  ∃ comp,
    __init__ ∅ Ref.usage_example = Ok comp ∧
    to_dict comp = (Err (Raised Ref.NotSerializable), comp).
Proof. split; [reflexivity|]. split; [reflexivity|]. eexists. split; reflexivity. Qed.

(** C2 on an instance: a component with the default references and a
    streaming callback goes through [to_dict] and [from_dict] unchanged. *)
Lemma C2_roundtrip_witness :
  ∃ comp d,
    __init__ (Ref.env_key "sk-one") Ref.with_callback = Ok comp ∧
    (to_dict comp).1 = Ok d ∧
    from_dict (Ref.env_key "sk-one") d = Ok comp.
Proof.
  eexists _, _. split; [reflexivity|]. split; [reflexivity|].
  edestruct (proj2 (proj2 (@C2_roundtrip Ref.framework Ref.runtime (Ref.env_key "sk-one")
                             reference_secret_contract reference_callable_contract))
               Ref.with_callback) as (_ & _ & _ & Hsame); [reflexivity | reflexivity |].
  apply Hsame. split; intros g Hg; [by injection Hg as <- | discriminate Hg].
Defined.

(** A callback that is false does not survive the round trip: it is
    serialized as null and the component read back holds [None]; the two
    components serialize to the same document. *)
Example false_callback_read_back_as_none :
  ∃ comp d comp',
    __init__ (Ref.env_key "sk-one") Ref.with_false_callback = Ok comp ∧
    to_dict comp = (Ok d, comp) ∧
    from_dict (Ref.env_key "sk-one") d = Ok comp' ∧
    streaming_callback comp = Some Ref.EmptyHandler ∧
    streaming_callback comp' = None ∧
    (to_dict comp').1 = Ok d.
Proof. eexists _, _, _. repeat split. Qed.

(** [from_dict] runs the constructor's checks on what it reconstructs: a
    document with no endpoint entry is refused with the endpoint error when
    the variable is unset, and one whose two credential entries are null
    with the credential error. *)
Example from_dict_runs_the_checks :
  from_dict (∅ : environ) (default_to_dict (∅ : gmap string Ref.rvalue))
    = Err (ConfigurationError msg_endpoint) ∧
  from_dict (∅ : environ)
    (default_to_dict
       (<["azure_endpoint" := PStr Ref.endpoint]>
       (<["api_key" := PNone]>
       (<["azure_ad_token" := PNone]> (∅ : gmap string Ref.rvalue)))))
    = Err (ConfigurationError msg_credential).
Proof. split; reflexivity. Qed.


(** * More sample inputs on the reference host *)

Module Samples.

(** [AzureOpenAIGenerator(azure_endpoint=endpoint, azure_deployment="")] *)
Definition empty_deployment : Call :=
  Ref.call_with (Passed (Some Ref.endpoint)) (Passed (Some "")) Omitted Omitted Omitted.

(** [AzureOpenAIGenerator(azure_endpoint=endpoint,
    generation_kwargs={"max_tokens": 64})] *)
Definition with_options : Call :=
  {| arg_azure_endpoint := Passed (Some Ref.endpoint);
     arg_api_version := Omitted; arg_azure_deployment := Omitted;
     arg_api_key := Omitted; arg_azure_ad_token := Omitted;
     arg_organization := Omitted; arg_streaming_callback := Omitted;
     arg_system_prompt := Omitted; arg_timeout := Omitted;
     arg_max_retries := Omitted;
     arg_generation_kwargs := Passed (Some {["max_tokens" := PInt 64]});
     arg_default_headers := Omitted;
     arg_azure_ad_token_provider := Omitted |}.

(** [AzureOpenAIGenerator(azure_endpoint=endpoint, timeout=10.0, max_retries=2)] *)
Definition all_explicit : Call :=
  {| arg_azure_endpoint := Passed (Some Ref.endpoint);
     arg_api_version := Omitted; arg_azure_deployment := Omitted;
     arg_api_key := Omitted; arg_azure_ad_token := Omitted;
     arg_organization := Omitted; arg_streaming_callback := Omitted;
     arg_system_prompt := Omitted; arg_timeout := Passed (Some 10%float);
     arg_max_retries := Passed (Some 2%Z);
     arg_generation_kwargs := Omitted; arg_default_headers := Omitted;
     arg_azure_ad_token_provider := Omitted |}.

(** The key is set and the endpoint variable names another endpoint. *)
Definition env_other_endpoint : environ :=
  <["AZURE_OPENAI_ENDPOINT" := "https://other.example/"]> (Ref.env_key "sk-one").

(** The endpoint, timeout, retries and key variables are all set. *)
Definition env_everything : environ :=
  <["AZURE_OPENAI_ENDPOINT" := "https://other.example/"]> Ref.env_numbers.

End Samples.

(** * Further properties of the constructor *)

Section Constructor.
Context `{Runtime}.

Lemma resolve_opt_Err env o e :
  resolve_opt env o = Err e →
  ∃ s h, o = Some s ∧ resolve_value env s = inl h ∧ e = Raised h.
Proof.
  destruct o as [s|]; simpl; [|discriminate].
  destruct (resolve_value env s) as [h|v] eqn:Hr; simpl; [|discriminate].
  intros He. injection He as <-. eauto.
Qed.

Lemma effective_timeout_Err env c e :
  effective_timeout env c = Err e →
  p_timeout c = None ∧
  py_float (default "30.0" (env !! "OPENAI_TIMEOUT")) = None ∧
  e = ParseError "float" (default "30.0" (env !! "OPENAI_TIMEOUT")).
Proof.
  unfold effective_timeout, float_env.
  destruct (p_timeout c); [discriminate|].
  destruct (py_float _); [discriminate|].
  intros He. by injection He as <-.
Qed.

Lemma effective_max_retries_Err env c e :
  effective_max_retries env c = Err e →
  p_max_retries c = None ∧
  py_int (default "5" (env !! "OPENAI_MAX_RETRIES")) = None ∧
  e = ParseError "int" (default "5" (env !! "OPENAI_MAX_RETRIES")).
Proof.
  unfold effective_max_retries, int_env.
  destruct (p_max_retries c); [discriminate|].
  destruct (py_int _); [discriminate|].
  intros He. by injection He as <-.
Qed.

Lemma assign_fields_Ok env c e f :
  assign_fields env c e = Ok f →
  effective_timeout env c = Ok (timeout f) ∧
  effective_max_retries env c = Ok (max_retries f) ∧
  azure_endpoint f = e.
Proof.
  unfold assign_fields. intros Hf.
  apply bind_Ok in Hf as (t & Ht & Hf).
  apply bind_Ok in Hf as (n & Hn & Hf).
  by injection Hf as <-.
Qed.

(** X1.  A non-empty [azure_endpoint] argument is the endpoint, whatever
    [AZURE_OPENAI_ENDPOINT] holds: the variable is not consulted, the
    endpoint error cannot be raised, and a constructed component stores the
    argument and hands it to the client. *)
Theorem endpoint_argument_wins env c e :
  p_azure_endpoint c = Some e →
  e ≠ "" →
  resolved_endpoint env c = Some e ∧
  __init__ env c ≠ Err (ConfigurationError msg_endpoint) ∧
  (∀ comp, __init__ env c = Ok comp →
     azure_endpoint comp = e ∧
     ∃ key token,
       AzureOpenAI env (kwargs_of comp key token) = inr (client comp) ∧
       kw_azure_endpoint (kwargs_of comp key token) = e).
Proof.
  intros Harg Hne.
  assert (str_truthy (p_azure_endpoint c) = true) as Htrue.
  { rewrite Harg. by apply str_truthy_nonempty. }
  assert (resolved_endpoint env c = Some e) as Hres.
  { unfold resolved_endpoint. by rewrite Htrue. }
  split; [done|]. split.
  - intros Herr.
    assert (is_configuration_error (init_fields env c) = true) as Hconf.
    { rewrite <- init_configuration_error. by rewrite Herr. }
    assert (endpoint_available env c = true) as Hav.
    { unfold endpoint_available. by rewrite Htrue. }
    destruct (credential_present c) eqn:Hc.
    + destruct (init_fields_checked env c Hav Hc) as (e' & _ & _ & Hf).
      rewrite Hf, assign_fields_not_configuration_error in Hconf. discriminate.
    + pose proof (init_fields_no_credential env c Hav Hc) as Hf.
      apply init_fields_Err in Hf. rewrite Hf in Herr. discriminate.
  - intros comp Hi. apply init_inv in Hi as (Hf & key & token & _ & _ & Hcl).
    apply init_fields_inv in Hf as (He & _).
    rewrite Hres in He. injection He as He.
    split; [done|]. exists key, token. split; [done|]. by simpl.
Qed.

(** X2.  The [model] of a constructed component is never empty: it is the
    deployment when that is a non-empty string and "gpt-4o-mini" when the
    deployment is [None] or empty.  The [azure_deployment] attribute keeps
    the parameter as it was, so an empty deployment stays empty there and in
    what the client is given. *)
Theorem model_follows_deployment env c comp :
  __init__ env c = Ok comp →
  model comp ≠ "" ∧
  azure_deployment comp = p_azure_deployment c ∧
  (∀ d, p_azure_deployment c = Some d → d ≠ "" → model comp = d) ∧
  (p_azure_deployment c = None ∨ p_azure_deployment c = Some "" →
     model comp = "gpt-4o-mini") ∧
  (arg_azure_deployment c = Omitted →
     model comp = "gpt-4o-mini" ∧ azure_deployment comp = Some "gpt-4o-mini") ∧
  ∃ key token,
    AzureOpenAI env (kwargs_of comp key token) = inr (client comp) ∧
    kw_azure_deployment (kwargs_of comp key token) = p_azure_deployment c.
Proof.
  intros Hi. apply init_inv in Hi as (Hf & key & token & _ & _ & Hcl).
  apply init_fields_inv in Hf
    as (_ & _ & _ & _ & _ & _ & _ & _ & _ & Hd & _ & Hm & _).
  split; [|split; [done|split; [|split; [|split]]]].
  - rewrite Hm. destruct (p_azure_deployment c) as [d|]; simpl; [|done].
    destruct (String.eqb_spec d ""); simpl; done.
  - intros d Hp Hne. rewrite Hm, Hp. by rewrite (str_truthy_nonempty _ Hne).
  - intros [Hp | Hp]; by rewrite Hm, Hp.
  - intros Hom. unfold p_azure_deployment in *. rewrite Hom in *. simpl in *.
    by rewrite Hm, Hd.
  - exists key, token. split; [done|]. by simpl.
Qed.

(** X3.  A mapping passed for [generation_kwargs] or [default_headers] is
    stored as it is, empty or not; only [None] is replaced, by the empty
    mapping.  The client is given the stored headers. *)
Theorem mappings_stored_as_passed env c comp :
  __init__ env c = Ok comp →
  generation_kwargs comp = default ∅ (p_generation_kwargs c) ∧
  default_headers comp = default ∅ (p_default_headers c) ∧
  ∃ key token,
    AzureOpenAI env (kwargs_of comp key token) = inr (client comp) ∧
    kw_default_headers (kwargs_of comp key token) = default ∅ (p_default_headers c).
Proof.
  intros Hi. apply init_inv in Hi as (Hf & key & token & _ & _ & Hcl).
  apply init_fields_inv in Hf
    as (_ & _ & _ & _ & _ & Hg & _ & _ & _ & _ & _ & _ & _ & _ & Hh & _).
  assert (∀ o : option (gmap string value),
            (if dict_truthy o then default ∅ o else ∅) = default ∅ o) as Hor.
  { intros [g|]; [apply dict_or_empty | done]. }
  rewrite Hor in Hg, Hh.
  split; [done|]. split; [done|].
  exists key, token. split; [done|]. by simpl.
Qed.

(** X4.  The constructor fails in one of seven ways, tried in this order:
    the endpoint error; the credential error; the parse error of [float] on
    the timeout text; the parse error of [int] on the retries text; what the
    resolution of [api_key] raises; what the resolution of [azure_ad_token]
    raises; what the client constructor raises.  Each is reached only when
    the steps before it went through. *)
Theorem constructor_failures env c e :
  __init__ env c = Err e →
  (endpoint_available env c = false ∧ e = ConfigurationError msg_endpoint) ∨
  (endpoint_available env c = true ∧ credential_present c = false ∧
   e = ConfigurationError msg_credential) ∨
  (endpoint_available env c = true ∧ credential_present c = true ∧
   p_timeout c = None ∧
   py_float (default "30.0" (env !! "OPENAI_TIMEOUT")) = None ∧
   e = ParseError "float" (default "30.0" (env !! "OPENAI_TIMEOUT"))) ∨
  (endpoint_available env c = true ∧ credential_present c = true ∧
   is_ok (effective_timeout env c) = true ∧
   p_max_retries c = None ∧
   py_int (default "5" (env !! "OPENAI_MAX_RETRIES")) = None ∧
   e = ParseError "int" (default "5" (env !! "OPENAI_MAX_RETRIES"))) ∨
  (∃ f, init_fields env c = Ok f ∧
     ((∃ s h, api_key f = Some s ∧ resolve_value env s = inl h ∧ e = Raised h) ∨
      (∃ key s h,
         resolve_opt env (api_key f) = Ok key ∧
         azure_ad_token f = Some s ∧ resolve_value env s = inl h ∧ e = Raised h) ∨
      (∃ key token h,
         resolve_opt env (api_key f) = Ok key ∧
         resolve_opt env (azure_ad_token f) = Ok token ∧
         AzureOpenAI env (kwargs_of f key token) = inl h ∧ e = Raised h))).
Proof.
  intros Hi.
  destruct (endpoint_available env c) eqn:Hav.
  2:{ left. split; [done|].
      pose proof (init_fields_no_endpoint env c Hav) as Hf.
      apply init_fields_Err in Hf. congruence. }
  destruct (credential_present c) eqn:Hc.
  2:{ right. left. split; [done|]. split; [done|].
      pose proof (init_fields_no_credential env c Hav Hc) as Hf.
      apply init_fields_Err in Hf. congruence. }
  destruct (init_fields_checked env c Hav Hc) as (e0 & _ & _ & Hf).
  destruct (init_fields env c) as [f|e1] eqn:Hfields.
  - do 4 right. exists f. split; [done|].
    unfold __init__, client_kwargs in Hi. rewrite Hfields in Hi. simpl in Hi.
    destruct (resolve_opt env (api_key f)) as [key|ek] eqn:Hk; simpl in Hi.
    + destruct (resolve_opt env (azure_ad_token f)) as [token|et] eqn:Ht; simpl in Hi.
      * right. right. exists key, token.
        destruct (AzureOpenAI env (kwargs_of f key token)) as [h|cl] eqn:Hcl;
          simpl in Hi; [|discriminate].
        injection Hi as <-. by exists h.
      * right. left. injection Hi as <-.
        apply resolve_opt_Err in Ht as (s & h & Hs & Hr & ->).
        by exists key, s, h.
    + left. injection Hi as <-.
      apply resolve_opt_Err in Hk as (s & h & Hs & Hr & ->).
      by exists s, h.
  - symmetry in Hf. pose proof (init_fields_Err env c e1 Hfields) as Hi'.
    rewrite Hi in Hi'. injection Hi' as ->.
    unfold assign_fields in Hf.
    destruct (effective_timeout env c) as [t|et] eqn:Ht; simpl in Hf.
    + destruct (effective_max_retries env c) as [n|en] eqn:Hn; simpl in Hf;
        [discriminate|].
      injection Hf as ->.
      apply effective_max_retries_Err in Hn as (Hp & Hparse & ->).
      do 3 right. left. done.
    + injection Hf as ->.
      apply effective_timeout_Err in Ht as (Hp & Hparse & ->).
      do 2 right. left. done.
Qed.


(** X6.  With a non-empty endpoint, a timeout and a retry count all passed
    as arguments, the checks and the assignments do not read the environment:
    they give the same attributes, or the same error, in every environment. *)
Theorem explicit_arguments_ignore_environment env env' c :
  str_truthy (p_azure_endpoint c) = true →
  is_Some (p_timeout c) →
  is_Some (p_max_retries c) →
  init_fields env c = init_fields env' c.
Proof.
  intros He [t Ht] [n Hn].
  unfold init_fields, resolved_endpoint, assign_fields, effective_timeout,
    effective_max_retries.
  by rewrite He, Ht, Hn.
Qed.
End Constructor.

(** * Further properties of serialization and deserialization *)

Section Documents.
Context `{Runtime}.






(** A successful [restore_callable]: the key set and the other entries are
    as before; the entry itself was false and is untouched, or was a
    non-empty name and is now the callable that name resolves to. *)
Lemma restore_callable_Ok key (ip ip' : gmap string value) :
  restore_callable key ip = Ok ip' →
  dom ip' = dom ip ∧
  (∀ k, k ≠ key → ip' !! k = ip !! k) ∧
  ((truthy callable_truth (default PNone (ip !! key)) = false ∧ ip' !! key = ip !! key) ∨
   (∃ n f, ip !! key = Some (PStr n) ∧ n ≠ "" ∧
           deserialize_callable n = inr f ∧ ip' !! key = Some (PCallable f))).
Proof.
  unfold restore_callable.
  destruct (truthy callable_truth (default PNone (ip !! key))) eqn:Htruthy.
  - destruct (ip !! key) as [v|] eqn:Hlook; simpl in *; [|discriminate].
    destruct v as [| | | |n| | | |]; try discriminate.
    destruct (deserialize_callable n) as [h|f] eqn:Hd; simpl; [discriminate|].
    intros Hip. injection Hip as <-.
    split; [|split].
    + rewrite dom_insert_L. apply elem_of_dom_2 in Hlook.
      apply subseteq_union_1_L. by apply singleton_subseteq_l.
    + intros k Hk. by rewrite lookup_insert_ne.
    + right. exists n, f. rewrite lookup_insert_eq. repeat split; try done.
      intros ->. done.
  - intros Hip. injection Hip as <-. split; [done|]. split; [done|]. by left.
Qed.

(** X8.  The two callable entries are put back in place (lines 199-207):
    when both steps go through, the dictionary has the same keys as before,
    every other entry is unchanged, and each of the two entries either was
    false (absent, null or the empty string) and is left as it was, or was a
    non-empty name and now holds the callable that name resolves to. *)
Theorem callables_restored_in_place (ip ip1 ip2 : gmap string value) :
  restore_callable "streaming_callback" ip = Ok ip1 →
  restore_callable "azure_ad_token_provider" ip1 = Ok ip2 →
  dom ip2 = dom ip ∧
  (∀ k, k ≠ "streaming_callback" → k ≠ "azure_ad_token_provider" →
        ip2 !! k = ip !! k) ∧
  (∀ key, key = "streaming_callback" ∨ key = "azure_ad_token_provider" →
     (truthy callable_truth (default PNone (ip !! key)) = false ∧ ip2 !! key = ip !! key) ∨
     (∃ n f, ip !! key = Some (PStr n) ∧ n ≠ "" ∧
             deserialize_callable n = inr f ∧ ip2 !! key = Some (PCallable f))).
Proof.
  intros Hcb Hpn.
  apply restore_callable_Ok in Hcb as (Hd1 & Ho1 & Hc1).
  apply restore_callable_Ok in Hpn as (Hd2 & Ho2 & Hc2).
  split; [congruence|]. split.
  - intros k Hk1 Hk2. rewrite Ho2, Ho1; done.
  - intros key [-> | ->].
    + rewrite Ho2 by done. done.
    + rewrite <- Ho1 by done. done.
Qed.

(** X9.  [from_dict] subscripts the document with "init_parameters" before
    anything else, so a document without that key is refused with a
    [KeyError] whatever its type entry says; the empty default of the
    [data.get] on the next line is never used.  A document of the right type
    whose "init_parameters" is present and empty is the constructor called
    with no argument. *)
Theorem from_dict_requires_init_parameters env (data : gmap string value) :
  (data !! "init_parameters" = None →
     from_dict env data = Err (KeyError "init_parameters")) ∧
  (data !! "init_parameters" = Some (PDict ∅) →
   data !! "type" = Some (PStr class_name) →
     from_dict env data =
     __init__ env
       {| arg_azure_endpoint := Omitted; arg_api_version := Omitted;
          arg_azure_deployment := Omitted; arg_api_key := Omitted;
          arg_azure_ad_token := Omitted; arg_organization := Omitted;
          arg_streaming_callback := Omitted; arg_system_prompt := Omitted;
          arg_timeout := Omitted; arg_max_retries := Omitted;
          arg_generation_kwargs := Omitted; arg_default_headers := Omitted;
          arg_azure_ad_token_provider := Omitted |}).
Proof.
  split.
  - intros Hnone. unfold from_dict, restored. by rewrite Hnone.
  - intros Hip Htype. unfold from_dict, restored. rewrite Hip.
    cbn [mbind result_bind].
    change (deserialize_secrets_inplace (∅ : gmap string value)
              ["api_key"; "azure_ad_token"]) with (Ok (∅ : gmap string value) : res _).
    cbn [mbind result_bind].
    change (restore_callable "streaming_callback" (∅ : gmap string value))
      with (Ok (∅ : gmap string value) : res _).
    cbn [mbind result_bind].
    change (restore_callable "azure_ad_token_provider" (∅ : gmap string value))
      with (Ok (∅ : gmap string value) : res _).
    cbn [mbind result_bind].
    rewrite (insert_id _ _ _ Hip).
    unfold default_from_dict. rewrite Htype, Hip, String.eqb_refl.
    cbn [mbind result_bind]. reflexivity.
Qed.

Lemma from_dict_delegates env (data : gmap string value) :
  from_dict env data = (c ← reconstructed data; __init__ env c).
Proof.
  unfold from_dict, reconstructed.
  destruct (restored data) as [data'|e]; simpl; [|done].
  unfold default_from_dict.
  destruct (data' !! "type") as [[]|]; try done.
  destruct (String.eqb _ _); [|done].
  destruct (data' !! "init_parameters") as [[]|]; simpl; try done.
  all: by destruct (bind_kwargs _).
Qed.

(** Once the checks and the assignments went through, only a collaborator
    can make the constructor fail. *)
Lemma init_fields_Ok_failure env c f e :
  init_fields env c = Ok f → __init__ env c = Err e → ∃ h, e = Raised h.
Proof.
  intros Hf. unfold __init__, client_kwargs. rewrite Hf. simpl.
  destruct (resolve_opt env (api_key f)) as [key|e1] eqn:Hk; simpl.
  2:{ apply resolve_opt_Err in Hk as (s & h & _ & _ & ->).
      intros [= <-]. eauto. }
  destruct (resolve_opt env (azure_ad_token f)) as [token|e1] eqn:Ht; simpl.
  2:{ apply resolve_opt_Err in Ht as (s & h & _ & _ & ->).
      intros [= <-]. eauto. }
  destruct (AzureOpenAI env _) as [h|cl]; simpl; [|discriminate].
  intros [= <-]. eauto.
Qed.

Lemma init_fields_call_of_anywhere env env' c f :
  init_fields env c = Ok f → init_fields env' (call_of f) = Ok f.
Proof.
  intros Hf. pose proof (init_fields_inv _ _ _ Hf) as (_ & Hne & _).
  rewrite <- (init_fields_call_of env c f Hf).
  unfold init_fields, resolved_endpoint, assign_fields, effective_timeout,
    effective_max_retries, p_azure_endpoint, p_timeout, p_max_retries, call_of.
  cbn [or_default arg_azure_endpoint arg_timeout arg_max_retries].
  by rewrite (str_truthy_nonempty _ Hne).
Qed.

(** X10.  The document of a constructed component fixes the endpoint, the
    timeout and the retry count: deserializing it in any other environment
    calls the constructor on the component's own attributes, a callable
    that is false being replaced by [None], and the checks and assignments
    go through without reading the endpoint, timeout and retry variables.
    So it can fail only with what the resolution of a secret or the client
    constructor raises there, never with a [ConfigurationError] or a parse
    error; and a component it returns has these attributes, whatever the
    secrets resolve to there, which are the attributes of the original
    when the callables the original holds are true, and serializes to the
    same document.  The document is the value [to_dict] returned:
    [from_dict] rewrites the dictionary it is given, and the comparison is
    with the document as it was before that call.  The framework is assumed
    to satisfy the contracts of the round trip. *)
Theorem document_is_portable env env' c comp d :
  (∀ s v, Secret_to_dict s = inr v → v ≠ PNone ∧ Secret_from_dict v = inr s) →
  (∀ f n, serialize_callable f = inr n → n ≠ "" ∧ deserialize_callable n = inr f) →
  __init__ env c = Ok comp →
  (to_dict comp).1 = Ok d →
  from_dict env' d = __init__ env' (call_of (as_serialized comp)) ∧
  init_fields env' (call_of (as_serialized comp)) = Ok (as_serialized comp) ∧
  (∀ e, from_dict env' d = Err e → ∃ h, e = Raised h) ∧
  (∀ comp', from_dict env' d = Ok comp' →
     fields comp' = as_serialized comp ∧
     (callables_true comp → fields comp' = fields comp) ∧
     (to_dict comp').1 = Ok d).
Proof.
  intros Hsecret Hcallable Hi Hd. rewrite to_dict_run in Hd. simpl in Hd.
  apply init_inv in Hi as (Hf & _).
  pose proof (init_fields_call_of_anywhere env env' _ _
                (init_fields_call_of_as_serialized _ _ _ Hf)) as Hf'.
  assert (from_dict env' d = __init__ env' (call_of (as_serialized comp))) as Hfrom.
  { rewrite from_dict_delegates. unfold reconstructed.
    rewrite (restored_document Hsecret Hcallable _ _ Hd).
    cbn [mbind result_bind]. unfold default_from_dict.
    change (default_to_dict ?ip !! "type") with (@Some value (PStr class_name)).
    change (default_to_dict ?ip !! "init_parameters") with (@Some value (PDict ip)).
    cbv beta iota. rewrite String.eqb_refl.
    cbn [mbind result_bind].
    by rewrite bind_kwargs_parameters. }
  split; [done|]. split; [done|]. rewrite Hfrom.
  split.
  - intros e. by apply init_fields_Ok_failure with (as_serialized comp).
  - intros comp' Hi'. apply init_inv in Hi' as (Hf'' & _).
    rewrite Hf' in Hf''. injection Hf'' as Heq.
    split; [done|]. split.
    + intros Htrue. by rewrite <- Heq, (as_serialized_id _ Htrue).
    + rewrite to_dict_run. simpl. by rewrite <- Heq, document_of_as_serialized.
Qed.
End Documents.

(** * The further properties on the reference host *)

(** X1 on an instance: the argument is stored although the variable names
    another endpoint. *)
Lemma endpoint_argument_wins_witness :
  ∃ comp,
    __init__ Samples.env_other_endpoint
             Ref.endpoint_only = Ok comp ∧
    azure_endpoint comp = Ref.endpoint.
Proof.
  eexists. split; [reflexivity|].
  destruct (endpoint_argument_wins
              Samples.env_other_endpoint
              Ref.endpoint_only Ref.endpoint eq_refl) as (_ & _ & Hstored); [done|].
  edestruct Hstored as [He _]; [reflexivity|]. exact He.
Defined.

(** X2 on an instance: [azure_deployment=""] gives the default model and
    keeps the empty deployment. *)
Lemma model_follows_deployment_witness :
  ∃ comp,
    __init__ (Ref.env_key "sk-one")
      Samples.empty_deployment = Ok comp ∧
    model comp = "gpt-4o-mini" ∧
    azure_deployment comp = Some "".
Proof.
  eexists. split; [reflexivity|].
  edestruct (model_follows_deployment (Ref.env_key "sk-one")
               Samples.empty_deployment)
    as (_ & Hd & _ & Hm & _); [reflexivity|].
  split; [apply Hm; by right | exact Hd].
Defined.

(** X3 on an instance: a one-entry [generation_kwargs] is stored as
    passed, the missing [default_headers] as the empty mapping. *)
Lemma mappings_stored_as_passed_witness :
  ∃ comp,
    __init__ (Ref.env_key "sk-one")
      Samples.with_options = Ok comp ∧
    generation_kwargs comp = {["max_tokens" := PInt 64]} ∧
    default_headers comp = ∅.
Proof.
  eexists. split; [reflexivity|].
  edestruct (mappings_stored_as_passed (Ref.env_key "sk-one") Samples.with_options)
    as (Hg & Hh & _); [reflexivity|].
  split; [exact Hg | exact Hh].
Defined.

(** X4 on an instance: endpoint given, key variable set, [OPENAI_TIMEOUT=abc];
    the failure is the third kind. *)
Lemma constructor_failures_witness :
  __init__ Ref.env_bad_timeout Ref.endpoint_only = Err (ParseError "float" "abc") ∧
  p_timeout Ref.endpoint_only = None ∧
  py_float "abc" = None.
Proof.
  split; [reflexivity|].
  destruct (constructor_failures Ref.env_bad_timeout Ref.endpoint_only
              (ParseError "float" "abc") eq_refl)
    as [(_ & He) | [(_ & _ & He) | [(_ & _ & Hp & Hparse & _) |
        [(_ & _ & _ & _ & _ & He) | (f & _ & [(s & h & _ & _ & He) |
        [(key & s & h & _ & _ & _ & He) | (key & token & h & _ & _ & _ & He)]])]]]];
    try discriminate He.
  split; [exact Hp | exact Hparse].
Defined.


(** X6 on an instance: endpoint, timeout and retries passed; the
    environment sets all three variables differently. *)
Lemma explicit_arguments_ignore_environment_witness :
  init_fields
    Samples.env_everything
    Samples.all_explicit
  = init_fields ∅
    Samples.all_explicit.
Proof.
  apply explicit_arguments_ignore_environment; [reflexivity | by eexists | by eexists].
Defined.


(** X8 on an instance: a named callback, a null provider and one other
    entry. *)
Lemma callables_restored_in_place_witness :
  ∃ ip1 ip2 : gmap string Ref.rvalue,
    restore_callable "streaming_callback"
      (<["streaming_callback" := PStr "app.on_chunk"]>
       (<["azure_ad_token_provider" := PNone]>
       (<["max_retries" := PInt 3]> ∅))) = Ok ip1 ∧
    restore_callable "azure_ad_token_provider" ip1 = Ok ip2 ∧
    ip2 !! "streaming_callback" = Some (PCallable (Ref.Function "app.on_chunk")) ∧
    ip2 !! "max_retries" = Some (PInt 3) ∧
    dom ip2 = {["streaming_callback"; "azure_ad_token_provider"; "max_retries"]}.
Proof.
  eexists _, _. split; [reflexivity|]. split; [reflexivity|].
  split; [reflexivity|].
  edestruct (callables_restored_in_place (H := Ref.framework)
               (<["streaming_callback" := PStr "app.on_chunk"]>
                (<["azure_ad_token_provider" := PNone]>
                (<["max_retries" := PInt 3]> ∅))))
    as (Hdom & Hother & _); [reflexivity | reflexivity |].
  split; [by rewrite Hother|].
  etransitivity; [exact Hdom | reflexivity].
Defined.

(** X9 on an instance: a document that is only a type name. *)
Lemma from_dict_requires_init_parameters_witness :
  from_dict (Ref.env_key "sk-one")
    ({["type" := PStr class_name]} : gmap string Ref.rvalue)
  = Err (KeyError "init_parameters").
Proof.
  apply (proj1 (@from_dict_requires_init_parameters Ref.framework Ref.runtime
                  (Ref.env_key "sk-one")
                  ({["type" := PStr class_name]} : gmap string Ref.rvalue))).
  reflexivity.
Defined.

(** X10 on an instance: built where the timeout variable is "45" and the
    key is "sk-one", read back where the variable is unset and the key is
    "sk-two": the timeout is still 45.0 and the client gets the new key. *)
Lemma document_is_portable_witness :
  ∃ comp d comp',
    __init__ Ref.env_numbers Ref.endpoint_only = Ok comp ∧
    (to_dict comp).1 = Ok d ∧
    from_dict (Ref.env_key "sk-two") d = Ok comp' ∧
    fields comp' = fields comp ∧
    timeout comp' = 45%float ∧
    kw_api_key (client comp') = Some "sk-two".
Proof.
  eexists _, _, _. split; [reflexivity|]. split; [reflexivity|].
  split; [reflexivity|]. split; [|split; reflexivity].
  edestruct (document_is_portable Ref.env_numbers (Ref.env_key "sk-two")
               Ref.endpoint_only)
    as (_ & _ & _ & Hback);
    [apply reference_secret_contract | apply reference_callable_contract
    | reflexivity | reflexivity |].
  edestruct Hback as (_ & Hsame & _); [reflexivity|].
  apply Hsame. split; intros g Hg; discriminate Hg.
Defined.
